(** * Stripe terminal POS backend: route handlers over the vendor SDK

    A shallow embedding of the Express route handlers of
    [src/routes/reader.routes.js], [src/routes/payment.routes.js], the
    payment-status router and the health check of [src/index.js].

    - JavaScript values are an inductive type; numbers are binary64 floats
      ([spec_float] with [prec = 53], [emax = 1024]).
    - A handler is a program in a small free monad [Prog]: it may call the
      Stripe SDK ([Call]), write to the console ([Log]), throw ([Throw]) and
      finally answer with the response it sends ([Ret]).
    - The SDK is an arbitrary state machine [Sdk W]; [exec] runs a handler
      against it and records the calls made, their outcomes and the console
      output. *)

From Stdlib Require Import ZArith List String Bool Lia.
From Stdlib Require Import Floats.SpecFloat.
Import ListNotations.
Open Scope string_scope.
Open Scope Z_scope.
#[local] Set Warnings "-register-all".

(** ** JavaScript values *)

(** The Number type: IEEE 754 binary64. *)
Definition prec : Z := 53.
Definition emax : Z := 1024.
Definition Number : Type := spec_float.

Inductive JsValue : Type :=
| JUndefined
| JNull
| JBool (b : bool)
| JNum (x : Number)
| JStr (s : string)
| JArr (items : list JsValue)
| JObj (fields : list (string * JsValue)).

(** Thrown values are [Error] instances: a name and a message. *)
Record JsError : Type := mkError { name : string; message : string }.

Definition NaN : Number := S754_nan.
Definition Number_of_Z (z : Z) : Number := binary_normalize prec emax z 0 false.
Definition zero : Number := S754_zero false.
Definition one : Number := Eval cbv in Number_of_Z 1.
Definition hundred : Number := Eval cbv in Number_of_Z 100.

(** The parts of the language runtime the handlers reach only through
    [ToNumber] on strings and arrays: the numeric value of a string and
    the decimal rendering of a number. *)
Class JsRuntime : Type := {
  StringToNumber : string -> Number;
  NumberToString : Number -> string
}.

(** ECMAScript [ToBoolean]. *)
Definition ToBoolean (v : JsValue) : bool :=
  match v with
  | JUndefined | JNull => false
  | JBool b => b
  | JNum (S754_zero _) | JNum S754_nan => false
  | JNum _ => true
  | JStr s => negb (String.eqb s "")
  | JArr _ | JObj _ => true
  end.

(** [!v], [a || b], [c ? a : b] on values. *)
Definition js_not (v : JsValue) : bool := negb (ToBoolean v).
Definition js_or (a b : JsValue) : JsValue := if ToBoolean a then a else b.

(** [v !== "s"] for a string literal [s]. *)
Definition strict_eq_string (v : JsValue) (s : string) : bool :=
  match v with
  | JStr t => String.eqb t s
  | _ => false
  end.
Definition strict_neq_string (v : JsValue) (s : string) : bool :=
  negb (strict_eq_string v s).

(** [Math.round]: the integral Number closest to [x], ties towards
    positive infinity; a result of zero keeps the sign of [x]. For a finite
    [x = (-1)^s * m * 2^e] with [e < 0] this is [floor (x + 1/2)], computed
    on integers as [(2n + d) / (2d)] with [n = +-m] and [d = 2^(-e)]. *)
Definition Math_round (x : Number) : Number :=
  match x with
  | S754_finite s m e =>
      if 0 <=? e then x
      else
        let d := 2 ^ (- e) in
        let n := if s then Z.neg m else Z.pos m in
        binary_normalize prec emax ((2 * n + d) / (2 * d)) 0 s
  | _ => x
  end.

(** Own-property lookup in an object literal. *)
Fixpoint lookup (k : string) (fields : list (string * JsValue)) : JsValue :=
  match fields with
  | [] => JUndefined
  | (k', v) :: rest => if String.eqb k k' then v else lookup k rest
  end.

Definition is_nullish (v : JsValue) : bool :=
  match v with
  | JUndefined | JNull => true
  | _ => false
  end.

Definition type_name (v : JsValue) : string :=
  match v with
  | JNull => "null"
  | _ => "undefined"
  end.

(** The TypeError of a property read on [undefined] or [null]. *)
Definition TypeError_read (v : JsValue) (k : string) : JsError :=
  mkError "TypeError"
    ("Cannot read properties of " ++ type_name v ++ " (reading '" ++ k ++ "')").

(** The TypeError of destructuring [undefined] or [null]. *)
Definition TypeError_destructure (v : JsValue) (k src : string) : JsError :=
  mkError "TypeError"
    ("Cannot destructure property '" ++ k ++ "' of '" ++ src ++ "' as it is "
       ++ type_name v ++ ".").

(** [o.k] on a value that is neither [undefined] nor [null], for the keys
    the handlers read; none of them is a property of the String, Number,
    Boolean or Array prototypes, so a primitive or an array yields
    [undefined]. *)
Definition prop (o : JsValue) (k : string) : JsValue :=
  match o with
  | JObj fields => lookup k fields
  | _ => JUndefined
  end.

(** [o.k]: a TypeError on [undefined] and [null]. *)
Definition read (o : JsValue) (k : string) : JsError + JsValue :=
  if is_nullish o then inl (TypeError_read o k) else inr (prop o k).

(** ** Conversions *)

Fixpoint has_own (k : string) (fields : list (string * JsValue)) : bool :=
  match fields with
  | [] => false
  | (k', _) :: rest => String.eqb k k' || has_own k rest
  end.

(** The TypeError of [ToPrimitive] on an object none of whose [valueOf]
    and [toString] yields a primitive. *)
Definition TypeError_primitive : JsError :=
  mkError "TypeError" "Cannot convert object to primitive value".

(** ECMAScript [ToString] on a value parsed from JSON. An array is joined
    with commas, [null] and [undefined] elements giving the empty string.
    A plain object has no callable member of its own, so it converts
    through [Object.prototype.toString] to ["[object Object]"], unless an
    own ["toString"] property hides that method: then no method yields a
    primitive ([Object.prototype.valueOf] returns the object itself) and
    the conversion throws. *)
Fixpoint ToString `{JsRuntime} (v : JsValue) : JsError + string :=
  match v with
  | JUndefined => inr "undefined"
  | JNull => inr "null"
  | JBool true => inr "true"
  | JBool false => inr "false"
  | JNum x => inr (NumberToString x)
  | JStr s => inr s
  | JArr items =>
      (fix join (l : list JsValue) : JsError + string :=
         match l with
         | [] => inr ""
         | x :: rest =>
             let first :=
               match x with
               | JUndefined | JNull => inr ""
               | _ => ToString x
               end in
             match first, rest with
             | inl e, _ => inl e
             | inr s, [] => inr s
             | inr s, _ :: _ =>
                 match join rest with
                 | inl e => inl e
                 | inr t => inr (s ++ "," ++ t)
                 end
             end
         end) items
  | JObj fields =>
      if has_own "toString" fields then inl TypeError_primitive
      else inr "[object Object]"
  end.

(** ECMAScript [ToNumber] on a value parsed from JSON: an array and an
    object convert through their string, which for a plain object is not
    a numeric literal. *)
Definition ToNumber `{JsRuntime} (v : JsValue) : JsError + Number :=
  match v with
  | JUndefined => inr NaN
  | JNull => inr zero
  | JBool true => inr one
  | JBool false => inr zero
  | JNum x => inr x
  | JStr s => inr (StringToNumber s)
  | JArr _ =>
      match ToString v with
      | inl e => inl e
      | inr s => inr (StringToNumber s)
      end
  | JObj fields =>
      if has_own "toString" fields then inl TypeError_primitive
      else inr NaN
  end.

(** [a <= b] and [a * b] where the right operand is a number literal. *)
Definition js_le `{JsRuntime} (a : JsValue) (b : Number) : JsError + bool :=
  match ToNumber a with
  | inl e => inl e
  | inr x => inr (SFleb x b)
  end.

Definition js_mul `{JsRuntime} (a : JsValue) (b : Number)
  : JsError + Number :=
  match ToNumber a with
  | inl e => inl e
  | inr x => inr (SFmul prec emax x b)
  end.

(** ** Requests and responses *)

Record Request : Type := mkRequest {
  params : list (string * string);
  headers : list (string * string);
  body : JsValue
}.

Fixpoint assoc (k : string) (l : list (string * string)) : JsValue :=
  match l with
  | [] => JUndefined
  | (k', v) :: rest => if String.eqb k k' then JStr v else assoc k rest
  end.

Inductive Body : Type :=
| Json (v : JsValue)
| Text (s : string).

Record Response : Type := mkResponse { statusCode : Z; sent : Body }.

(** [res.status(n).json(o)], [res.json(o)], [res.status(n).send(s)]. *)
Definition status_json (n : Z) (o : JsValue) : Response := mkResponse n (Json o).
Definition json (o : JsValue) : Response := mkResponse 200 (Json o).
Definition status_send (n : Z) (s : string) : Response := mkResponse n (Text s).

(** ** The SDK and the console *)

Inductive SdkMethod : Type :=
| terminal_readers_list
| terminal_readers_create
| terminal_readers_retrieve
| terminal_readers_processPaymentIntent
| testHelpers_terminal_readers_presentPaymentMethod
| paymentIntents_create
| paymentIntents_capture
| paymentIntents_cancel
| paymentIntents_retrieve
| webhooks_constructEvent.

Record SdkCall : Type := mkCall { method : SdkMethod; args : list JsValue }.

Inductive Outcome : Type :=
| Returns (v : JsValue)
| Throws (e : JsError).

Inductive LogArg : Type :=
| LogValue (v : JsValue)
| LogError (e : JsError).

Inductive Stream : Type := console_log | console_error.

Record LogEntry : Type := mkLog { stream : Stream; text : string; arg : LogArg }.

(** ** Handler programs *)

Inductive Prog (A : Type) : Type :=
| Ret (a : A)
| Throw (e : JsError)
| Call (c : SdkCall) (k : Outcome -> Prog A)
| Log (l : LogEntry) (k : Prog A).

Arguments Ret {A} a.
Arguments Throw {A} e.
Arguments Call {A} c k.
Arguments Log {A} l k.

Fixpoint bind {A B : Type} (p : Prog A) (f : A -> Prog B) : Prog B :=
  match p with
  | Ret a => f a
  | Throw e => Throw e
  | Call c k => Call c (fun o => bind (k o) f)
  | Log l k => Log l (bind k f)
  end.

(** [try { p } catch (error) { h error }]. *)
Fixpoint try_catch {A : Type} (p : Prog A) (h : JsError -> Prog A) : Prog A :=
  match p with
  | Ret a => Ret a
  | Throw e => h e
  | Call c k => Call c (fun o => try_catch (k o) h)
  | Log l k => Log l (try_catch k h)
  end.

Notation "x <- p ;; q" := (bind p (fun x => q))
  (at level 61, p at next level, right associativity).
Notation "p ;;; q" := (bind p (fun _ => q))
  (at level 61, right associativity).

(** An SDK call whose rejection (or synchronous throw) is thrown at the
    call site. *)
Definition await (m : SdkMethod) (a : list JsValue) : Prog JsValue :=
  Call (mkCall m a)
    (fun o => match o with Returns v => Ret v | Throws e => Throw e end).

Definition lift {A : Type} (r : JsError + A) : Prog A :=
  match r with
  | inl e => Throw e
  | inr a => Ret a
  end.

Definition get (o : JsValue) (k : string) : Prog JsValue := lift (read o k).

(** [const { k } = o] and [const { k = d } = o]. *)
Definition destructure (o : JsValue) (src k : string) : Prog JsValue :=
  if is_nullish o then Throw (TypeError_destructure o k src)
  else Ret (prop o k).

Definition with_default (v d : JsValue) : JsValue :=
  match v with
  | JUndefined => d
  | _ => v
  end.

Definition log (t : string) (v : JsValue) : Prog unit :=
  Log (mkLog console_log t (LogValue v)) (Ret tt).
Definition error_ (t : string) (e : JsError) : Prog unit :=
  Log (mkLog console_error t (LogError e)) (Ret tt).

(** The envelopes every JSON route builds. *)
Definition error_envelope (msg : string) : JsValue :=
  JObj [("status", JStr "error"); ("message", JStr msg)].

(** The shared [catch] block: log, then answer 500 with the message. *)
Definition catch_500 (t : string) (error : JsError) : Prog Response :=
  error_ t error ;;;
  Ret (status_json 500 (error_envelope (message error))).

(** ** Configuration *)

(** [src/config/simulated-reader.js]. *)
Module simulatedReaderConfig.
Module testMode.
Definition isEnabled : JsValue := JBool true.
Definition defaultCurrency : JsValue := JStr "usd".
End testMode.
End simulatedReaderConfig.

(** [process.env], as far as a handler reads it. *)
Record ProcessEnv : Type := mkEnv { STRIPE_WEBHOOK_SECRET : JsValue }.

(** ** reader.routes.js *)

Section Handlers.
Context `{RT : JsRuntime}.
Variable process_env : ProcessEnv.

(** [GET /api/readers]. *)
Definition list_readers (req : Request) : Prog Response :=
  try_catch
    (readers <- await terminal_readers_list [] ;;
     data <- get readers "data" ;;
     Ret (status_json 200
            (JObj [("status", JStr "success"); ("readers", data)])))
    (catch_500 "Error fetching readers:").

(** [POST /api/readers/register]. *)
Definition register_reader (req : Request) : Prog Response :=
  try_catch
    (registration_code <- destructure (body req) "req.body" "registration_code" ;;
     label <- destructure (body req) "req.body" "label" ;;
     location <- destructure (body req) "req.body" "location" ;;
     simulated0 <- destructure (body req) "req.body" "simulated" ;;
     let simulated := with_default simulated0 (JBool false) in
     let regCode :=
       if ToBoolean simulated then JStr "simulated-wpe" else registration_code in
     if js_not regCode then
       Ret (status_json 400
              (error_envelope "Registration code is required for physical readers"))
     else
       let readerParams :=
         JObj [("registration_code", regCode);
               ("label",
                js_or label
                  (if ToBoolean simulated then JStr "Simulated Reader" else JUndefined));
               ("location",
                js_or location
                  (if ToBoolean simulated then JStr "test_mode" else JUndefined))] in
       reader <- await terminal_readers_create [readerParams] ;;
       Ret (status_json 201
              (JObj [("status", JStr "success"); ("reader", reader)])))
    (catch_500 "Error registering reader:").

(** [GET /api/readers/:readerId]. *)
Definition get_reader (req : Request) : Prog Response :=
  try_catch
    (let readerId := assoc "readerId" (params req) in
     reader <- await terminal_readers_retrieve [readerId] ;;
     Ret (status_json 200
            (JObj [("status", JStr "success"); ("reader", reader)])))
    (catch_500 "Error fetching reader:").

(** ** payment.routes.js *)

(** [!amount || amount <= 0]: the comparison is evaluated, and may throw,
    only when the amount is truthy. *)
Definition amount_invalid (amount : JsValue) : Prog bool :=
  if js_not amount then Ret true else lift (js_le amount zero).

(** The argument both payment routes pass to [stripe.paymentIntents.create],
    [product] being the value of [amount * 100]. *)
Definition payment_intent_params (product : Number)
    (currency readerId : JsValue) : JsValue :=
  JObj [("amount", JNum (Math_round product));
        ("currency", currency);
        ("payment_method_types", JArr [JStr "card_present"]);
        ("capture_method", JStr "manual");
        ("metadata", JObj [("readerId", readerId)])].

(** [POST /api/payments/create-payment-intent]. *)
Definition create_payment_intent (req : Request) : Prog Response :=
  try_catch
    (amount <- destructure (body req) "req.body" "amount" ;;
     currency0 <- destructure (body req) "req.body" "currency" ;;
     let currency :=
       with_default currency0 simulatedReaderConfig.testMode.defaultCurrency in
     readerId <- destructure (body req) "req.body" "readerId" ;;
     simulated0 <- destructure (body req) "req.body" "simulated" ;;
     let simulated := with_default simulated0 (JBool false) in
     invalid <- amount_invalid amount ;;
     if (invalid : bool) then
       Ret (status_json 400 (error_envelope "Valid amount is required"))
     else if js_not readerId then
       Ret (status_json 400 (error_envelope "Reader ID is required"))
     else
       reader <- await terminal_readers_retrieve [readerId] ;;
       if js_not reader then
         Ret (status_json 404 (error_envelope "Reader not found"))
       else
         status <- get reader "status" ;;
         if js_not simulated && strict_neq_string status "online" then
           Ret (status_json 400 (error_envelope "Reader is not online"))
         else
           product <- lift (js_mul amount hundred) ;;
           paymentIntent <-
             await paymentIntents_create
               [payment_intent_params product currency readerId] ;;
           Ret (status_json 200
                  (JObj [("status", JStr "success");
                         ("paymentIntent", paymentIntent)])))
    (catch_500 "Error creating payment intent:").

(** [POST /api/payments/capture-payment/:paymentIntentId]. *)
Definition capture_payment (req : Request) : Prog Response :=
  try_catch
    (let paymentIntentId := assoc "paymentIntentId" (params req) in
     paymentIntent <- await paymentIntents_capture [paymentIntentId] ;;
     Ret (status_json 200
            (JObj [("status", JStr "success"); ("paymentIntent", paymentIntent)])))
    (catch_500 "Error capturing payment:").

(** [POST /api/payments/cancel-payment/:paymentIntentId]. *)
Definition cancel_payment (req : Request) : Prog Response :=
  try_catch
    (let paymentIntentId := assoc "paymentIntentId" (params req) in
     paymentIntent <- await paymentIntents_cancel [paymentIntentId] ;;
     Ret (status_json 200
            (JObj [("status", JStr "success"); ("paymentIntent", paymentIntent)])))
    (catch_500 "Error canceling payment:").

(** The [switch (event.type)] of the webhook: the value left in the local
    variable [response]. *)
Definition webhook_switch (event : JsValue) : Prog JsValue :=
  type <- get event "type" ;;
  if strict_eq_string type "payment_intent.succeeded" then
    data <- get event "data" ;;
    paymentIntent <- get data "object" ;;
    id <- get paymentIntent "id" ;;
    log "Payment succeeded:" id ;;;
    status <- get paymentIntent "status" ;;
    amount <- get paymentIntent "amount" ;;
    currency <- get paymentIntent "currency" ;;
    payment_method <- get paymentIntent "payment_method" ;;
    created <- get paymentIntent "created" ;;
    metadata <- get paymentIntent "metadata" ;;
    Ret (JObj [("received", JBool true);
               ("status", JStr "success");
               ("payment_intent",
                JObj [("id", id); ("status", status); ("amount", amount);
                      ("currency", currency);
                      ("payment_method", payment_method);
                      ("created", created); ("metadata", metadata)])])
  else if strict_eq_string type "payment_intent.payment_failed" then
    data <- get event "data" ;;
    failedPayment <- get data "object" ;;
    id <- get failedPayment "id" ;;
    log "Payment failed:" id ;;;
    status <- get failedPayment "status" ;;
    amount <- get failedPayment "amount" ;;
    currency <- get failedPayment "currency" ;;
    error <- get failedPayment "last_payment_error" ;;
    created <- get failedPayment "created" ;;
    metadata <- get failedPayment "metadata" ;;
    Ret (JObj [("received", JBool true);
               ("status", JStr "failed");
               ("payment_intent",
                JObj [("id", id); ("status", status); ("amount", amount);
                      ("currency", currency); ("error", error);
                      ("created", created); ("metadata", metadata)])])
  else
    Ret (JObj [("received", JBool true)]).

(** [POST /api/payments/webhook]. *)
Definition webhook (req : Request) : Prog Response :=
  let sig := assoc "stripe-signature" (headers req) in
  try_catch
    (event <-
       await webhooks_constructEvent
         [body req; sig; STRIPE_WEBHOOK_SECRET process_env] ;;
     response <- webhook_switch event ;;
     Ret (json (JObj [("received", JBool true)])))
    (fun error =>
       error_ "Webhook error:" error ;;;
       Ret (status_send 400 ("Webhook Error: " ++ message error))).

(** [POST /api/payments/process-payment/:readerId]. *)
Definition process_payment (req : Request) : Prog Response :=
  try_catch
    (let readerId := assoc "readerId" (params req) in
     payment_intent <- destructure (body req) "req.body" "payment_intent" ;;
     if js_not payment_intent then
       Ret (status_json 400 (error_envelope "Payment intent ID is required"))
     else
       reader <- await terminal_readers_retrieve [readerId] ;;
       if js_not reader then
         Ret (status_json 404 (error_envelope "Reader not found"))
       else
         status <- get reader "status" ;;
         if strict_neq_string status "online" then
           Ret (status_json 400 (error_envelope "Reader is not online"))
         else
           processedReader <-
             await terminal_readers_processPaymentIntent
               [readerId; JObj [("payment_intent", payment_intent)]] ;;
           Ret (status_json 200
                  (JObj [("status", JStr "success");
                         ("reader", processedReader)])))
    (catch_500 "Error processing payment:").

(** [POST /api/payments/simulate-payment/:readerId]. *)
Definition simulate_payment (req : Request) : Prog Response :=
  try_catch
    (let readerId := assoc "readerId" (params req) in
     reader <- await terminal_readers_retrieve [readerId] ;;
     if js_not reader then
       Ret (status_json 404 (error_envelope "Reader not found"))
     else
       simulatedReader <-
         await testHelpers_terminal_readers_presentPaymentMethod [readerId] ;;
       Ret (status_json 200
              (JObj [("status", JStr "success"); ("reader", simulatedReader)])))
    (catch_500 "Error simulating payment:").

(** [POST /api/payments/create-and-process-payment/:readerId]. *)
Definition create_and_process_payment (req : Request) : Prog Response :=
  try_catch
    (let readerId := assoc "readerId" (params req) in
     amount <- destructure (body req) "req.body" "amount" ;;
     currency0 <- destructure (body req) "req.body" "currency" ;;
     let currency :=
       with_default currency0 simulatedReaderConfig.testMode.defaultCurrency in
     simulated0 <- destructure (body req) "req.body" "simulated" ;;
     let simulated := with_default simulated0 (JBool false) in
     invalid <- amount_invalid amount ;;
     if (invalid : bool) then
       Ret (status_json 400 (error_envelope "Valid amount is required"))
     else
       reader <- await terminal_readers_retrieve [readerId] ;;
       if js_not reader then
         Ret (status_json 404 (error_envelope "Reader not found"))
       else
         status <- get reader "status" ;;
         if js_not simulated && strict_neq_string status "online" then
           Ret (status_json 400 (error_envelope "Reader is not online"))
         else
           product <- lift (js_mul amount hundred) ;;
           paymentIntent <-
             await paymentIntents_create
               [payment_intent_params product currency readerId] ;;
           id <- get paymentIntent "id" ;;
           processedReader <-
             await terminal_readers_processPaymentIntent
               [readerId; JObj [("payment_intent", id)]] ;;
           Ret (status_json 200
                  (JObj [("status", JStr "success");
                         ("paymentIntent", paymentIntent);
                         ("reader", processedReader)])))
    (catch_500 "Error processing payment:").

(** ** The payment-status router *)

(** [GET /api/payment-status/:paymentIntentId]. *)
Definition payment_status (req : Request) : Prog Response :=
  try_catch
    (let paymentIntentId := assoc "paymentIntentId" (params req) in
     paymentIntent <- await paymentIntents_retrieve [paymentIntentId] ;;
     if js_not paymentIntent then
       Ret (status_json 404 (error_envelope "Payment intent not found"))
     else
       id <- get paymentIntent "id" ;;
       status <- get paymentIntent "status" ;;
       amount <- get paymentIntent "amount" ;;
       currency <- get paymentIntent "currency" ;;
       payment_method <- get paymentIntent "payment_method" ;;
       created <- get paymentIntent "created" ;;
       metadata <- get paymentIntent "metadata" ;;
       last_payment_error <- get paymentIntent "last_payment_error" ;;
       Ret (status_json 200
              (JObj [("status", JStr "success");
                     ("payment_intent",
                      JObj [("id", id); ("status", status); ("amount", amount);
                            ("currency", currency);
                            ("payment_method", payment_method);
                            ("created", created); ("metadata", metadata);
                            ("last_payment_error", last_payment_error)])])))
    (catch_500 "Error retrieving payment status:").

(** ** index.js *)

(** [GET /health]. *)
Definition health (req : Request) : Prog Response :=
  Ret (status_json 200 (JObj [("status", JStr "ok")])).

(** The routes of the application. *)
Inductive Endpoint : Type :=
| GET_readers
| POST_readers_register
| GET_readers_id
| POST_payments_create_payment_intent
| POST_payments_capture_payment
| POST_payments_cancel_payment
| POST_payments_webhook
| POST_payments_process_payment
| POST_payments_simulate_payment
| POST_payments_create_and_process_payment
| GET_payment_status
| GET_health.

Definition handler (ep : Endpoint) : Request -> Prog Response :=
  match ep with
  | GET_readers => list_readers
  | POST_readers_register => register_reader
  | GET_readers_id => get_reader
  | POST_payments_create_payment_intent => create_payment_intent
  | POST_payments_capture_payment => capture_payment
  | POST_payments_cancel_payment => cancel_payment
  | POST_payments_webhook => webhook
  | POST_payments_process_payment => process_payment
  | POST_payments_simulate_payment => simulate_payment
  | POST_payments_create_and_process_payment => create_and_process_payment
  | GET_payment_status => payment_status
  | GET_health => health
  end.

End Handlers.

(** ** Running a handler against the SDK *)

(** The vendor service: a state machine answering each call. *)
Definition Sdk (W : Type) : Type := W -> SdkCall -> Outcome * W.

Record Run (W A : Type) : Type := mkRun {
  result : JsError + A;
  calls : list SdkCall;
  outcomes : list Outcome;
  console : list LogEntry;
  world : W
}.

Arguments mkRun {W A}.
Arguments result {W A}.
Arguments calls {W A}.
Arguments outcomes {W A}.
Arguments console {W A}.
Arguments world {W A}.

Definition add_call {W A : Type} (c : SdkCall) (o : Outcome) (r : Run W A)
  : Run W A :=
  match r with
  | mkRun res cs os ls w => mkRun res (c :: cs) (o :: os) ls w
  end.

Definition add_log {W A : Type} (l : LogEntry) (r : Run W A) : Run W A :=
  match r with
  | mkRun res cs os ls w => mkRun res cs os (l :: ls) w
  end.

Fixpoint exec {W A : Type} (sdk : Sdk W) (p : Prog A) (w : W) : Run W A :=
  match p with
  | Ret a => mkRun (inr a) [] [] [] w
  | Throw e => mkRun (inl e) [] [] [] w
  | Call c k => let (o, w') := sdk w c in add_call c o (exec sdk (k o) w')
  | Log l k => add_log l (exec sdk k w)
  end.

(** What the client receives: the response sent, or nothing when the
    handler's promise rejects. *)
Definition response {W : Type} (r : Run W Response) : option Response :=
  match result r with
  | inr res => Some res
  | inl _ => None
  end.

(** The SDK methods called, in order. *)
Definition methods {W A : Type} (r : Run W A) : list SdkMethod :=
  map method (calls r).

(** An SDK that answers from a script, whatever it is asked. *)
Definition scripted : Sdk (list Outcome) :=
  fun w _ =>
    match w with
    | [] => (Throws (mkError "Error" "script exhausted"), [])
    | o :: w' => (o, w')
    end.

(** A runtime for closed examples; they convert no string to a number. *)
Definition no_strings : JsRuntime :=
  {| StringToNumber := fun _ => NaN; NumberToString := fun _ => "" |}.

(** Running a handler depends on the SDK only through the outcomes it is
    handed: [replay] feeds a program a list of outcomes, one per call. *)
Fixpoint replay {A : Type} (p : Prog A) (os : list Outcome)
  : option (JsError + A) :=
  match p with
  | Ret a => Some (inr a)
  | Throw e => Some (inl e)
  | Call c k =>
      match os with
      | [] => None
      | o :: os' => replay (k o) os'
      end
  | Log l k => replay k os
  end.

(** ** Vocabulary of the properties *)

Definition Prefix {A : Type} (l1 l2 : list A) : Prop :=
  exists rest, l2 = (l1 ++ rest)%list.

(** The SDK methods written in each handler, in program order. *)
Definition endpoint_methods (ep : Endpoint) : list SdkMethod :=
  match ep with
  | GET_readers => [terminal_readers_list]
  | POST_readers_register => [terminal_readers_create]
  | GET_readers_id => [terminal_readers_retrieve]
  | POST_payments_create_payment_intent =>
      [terminal_readers_retrieve; paymentIntents_create]
  | POST_payments_capture_payment => [paymentIntents_capture]
  | POST_payments_cancel_payment => [paymentIntents_cancel]
  | POST_payments_webhook => [webhooks_constructEvent]
  | POST_payments_process_payment =>
      [terminal_readers_retrieve; terminal_readers_processPaymentIntent]
  | POST_payments_simulate_payment =>
      [terminal_readers_retrieve;
       testHelpers_terminal_readers_presentPaymentMethod]
  | POST_payments_create_and_process_payment =>
      [terminal_readers_retrieve; paymentIntents_create;
       terminal_readers_processPaymentIntent]
  | GET_payment_status => [paymentIntents_retrieve]
  | GET_health => []
  end.

(** The fewest calls a request to a route causes: routes that validate
    nothing call their first method whatever the request. *)
Definition min_calls (ep : Endpoint) : nat :=
  match ep with
  | GET_readers | GET_readers_id | POST_payments_capture_payment
  | POST_payments_cancel_payment | POST_payments_webhook
  | POST_payments_simulate_payment | GET_payment_status => 1
  | _ => 0
  end.



(** The routes answering through [res.status(..).json({status: ..})]; the
    webhook and the health check answer otherwise. *)
Definition envelope_route (ep : Endpoint) : bool :=
  match ep with
  | POST_payments_webhook | GET_health => false
  | _ => true
  end.

(** The two event types the webhook singles out. *)
Definition handled_type (t : JsValue) : bool :=
  strict_eq_string t "payment_intent.succeeded"
  || strict_eq_string t "payment_intent.payment_failed".

(** An event as the Stripe API delivers it, as far as the webhook reads it:
    not [null], and carrying its payment intent in [data.object] when its
    type is one of the two handled. *)
Definition stripe_event (ev : JsValue) : bool :=
  negb (is_nullish ev)
  && (if handled_type (prop ev "type") then
        negb (is_nullish (prop ev "data"))
        && negb (is_nullish (prop (prop ev "data") "object"))
      else true).

(** An amount that is absent, zero or negative. *)
Definition absent_zero_or_negative (amount : JsValue) : bool :=
  match amount with
  | JUndefined => true
  | JNum x => SFeqb x zero || SFltb x zero
  | _ => false
  end.

(** A number above zero. *)
Definition positive_number (amount : JsValue) : bool :=
  match amount with
  | JNum x => SFltb zero x
  | _ => false
  end.

(** Binary64 constants of the examples: 10.99, 1099, 0.615, 62, 1000,
    100000, 50 and -5. *)
Definition n10_99 : Number := S754_finite false 6186819988100219 (-49).
Definition n1099 : Number := S754_finite false 4833453115703296 (-42).
Definition n0_615 : Number := S754_finite false 5539427541665710 (-53).
Definition n62 : Number := S754_finite false 8725724278030336 (-47).
Definition n1000 : Number := S754_finite false 8796093022208000 (-43).
Definition n100000 : Number := S754_finite false 6871947673600000 (-36).
Definition n50 : Number := S754_finite false 7036874417766400 (-47).
Definition minus5 : Number := S754_finite true 5629499534213120 (-50).

(** A reader that is online, one that is not, and sample requests. *)
Definition online_reader : JsValue :=
  JObj [("id", JStr "tmr_1"); ("object", JStr "terminal.reader");
        ("status", JStr "online")].
Definition offline_reader : JsValue :=
  JObj [("id", JStr "tmr_1"); ("object", JStr "terminal.reader");
        ("status", JStr "offline")].
Definition sample_intent : JsValue :=
  JObj [("id", JStr "pi_1"); ("object", JStr "payment_intent");
        ("status", JStr "requires_payment_method")].
Definition sample_env : ProcessEnv := mkEnv (JStr "whsec_test").

(** The calls and answers the statements below name. *)
Definition constructEvent_call (env : ProcessEnv) (req : Request) : SdkCall :=
  mkCall webhooks_constructEvent
    [body req; assoc "stripe-signature" (headers req); STRIPE_WEBHOOK_SECRET env].

Definition retrieve_call (readerId : JsValue) : SdkCall :=
  mkCall terminal_readers_retrieve [readerId].

Definition list_call : SdkCall := mkCall terminal_readers_list [].

Definition received : JsValue := JObj [("received", JBool true)].

Definition amount_required : Response :=
  status_json 400 (error_envelope "Valid amount is required").

Definition not_online : Response :=
  status_json 400 (error_envelope "Reader is not online").

Definition registration_required : Response :=
  status_json 400
    (error_envelope "Registration code is required for physical readers").

(** The payment intent a request with the number [x] as its amount asks
    the SDK to create. *)
Definition forwarded (x : Number) (currency readerId : JsValue) : JsValue :=
  JObj [("amount", JNum (Math_round (SFmul prec emax x hundred)));
        ("currency", with_default currency (JStr "usd"));
        ("payment_method_types", JArr [JStr "card_present"]);
        ("capture_method", JStr "manual");
        ("metadata", JObj [("readerId", readerId)])].

(** The objects the webhook's [switch] assembles for the two handled
    types, from the payment intent [pi] of the event. *)
Definition succeeded_response (pi : JsValue) : JsValue :=
  JObj [("received", JBool true);
        ("status", JStr "success");
        ("payment_intent",
         JObj [("id", prop pi "id"); ("status", prop pi "status");
               ("amount", prop pi "amount"); ("currency", prop pi "currency");
               ("payment_method", prop pi "payment_method");
               ("created", prop pi "created");
               ("metadata", prop pi "metadata")])].

Definition failed_response (pi : JsValue) : JsValue :=
  JObj [("received", JBool true);
        ("status", JStr "failed");
        ("payment_intent",
         JObj [("id", prop pi "id"); ("status", prop pi "status");
               ("amount", prop pi "amount"); ("currency", prop pi "currency");
               ("error", prop pi "last_payment_error");
               ("created", prop pi "created");
               ("metadata", prop pi "metadata")])].

(** Sample requests and events. *)
Definition payment_request (amount : JsValue) (simulated : bool) : Request :=
  mkRequest [("readerId", "tmr_1")] []
    (JObj [("amount", amount); ("readerId", JStr "tmr_1");
           ("simulated", JBool simulated); ("payment_intent", JStr "pi_1")]).

Definition signed_request : Request :=
  mkRequest [] [("stripe-signature", "t=1,v1=abc")]
    (JObj [("id", JStr "evt_1")]).

Definition succeeded_event : JsValue :=
  JObj [("id", JStr "evt_1");
        ("type", JStr "payment_intent.succeeded");
        ("data", JObj [("object", sample_intent)])].

Definition register_request (simulated : bool) : Request :=
  mkRequest [] [] (JObj [("simulated", JBool simulated); ("label", JStr "Test Reader")]).

(** More answers and calls the statements name. *)
Definition reader_not_found : Response :=
  status_json 404 (error_envelope "Reader not found").

Definition reader_id_required : Response :=
  status_json 400 (error_envelope "Reader ID is required").

Definition payment_intent_required : Response :=
  status_json 400 (error_envelope "Payment intent ID is required").

Definition payment_intent_not_found : Response :=
  status_json 404 (error_envelope "Payment intent not found").

Definition server_error (e : JsError) : Response :=
  status_json 500 (error_envelope (message e)).

Definition success (key : string) (v : JsValue) : JsValue :=
  JObj [("status", JStr "success"); (key, v)].

Definition process_call (readerId payment_intent : JsValue) : SdkCall :=
  mkCall terminal_readers_processPaymentIntent
    [readerId; JObj [("payment_intent", payment_intent)]].

(** The status codes written in each handler. *)
Definition endpoint_statuses (ep : Endpoint) : list Z :=
  match ep with
  | GET_readers => [200; 500]
  | POST_readers_register => [201; 400; 500]
  | GET_readers_id => [200; 500]
  | POST_payments_create_payment_intent => [200; 400; 404; 500]
  | POST_payments_capture_payment => [200; 500]
  | POST_payments_cancel_payment => [200; 500]
  | POST_payments_webhook => [200; 400]
  | POST_payments_process_payment => [200; 400; 404; 500]
  | POST_payments_simulate_payment => [200; 404; 500]
  | POST_payments_create_and_process_payment => [200; 400; 404; 500]
  | GET_payment_status => [200; 404; 500]
  | GET_health => [200]
  end.

(** The routes that read [req.body] field by field, with the first field
    each one destructures. *)
Definition first_body_field (ep : Endpoint) : option string :=
  match ep with
  | POST_readers_register => Some "registration_code"
  | POST_payments_create_payment_intent => Some "amount"
  | POST_payments_process_payment => Some "payment_intent"
  | POST_payments_create_and_process_payment => Some "amount"
  | _ => None
  end.

(** The fields of a payment intent the payment-status route passes on. *)
Definition status_fields : list string :=
  ["id"; "status"; "amount"; "currency"; "payment_method"; "created";
   "metadata"; "last_payment_error"].

(** The routes that look the reader up and answer 404 when there is none. *)
Definition checks_reader (ep : Endpoint) : bool :=
  match ep with
  | POST_payments_create_payment_intent | POST_payments_process_payment
  | POST_payments_simulate_payment
  | POST_payments_create_and_process_payment => true
  | _ => false
  end.

(** An amount the check [!amount || amount <= 0] lets through: truthy,
    and compared with zero without an exception and found above it or not
    comparable. *)
Definition valid_amount `{JsRuntime} (amount : JsValue) : bool :=
  ToBoolean amount
  && match js_le amount zero with
     | inr false => true
     | _ => false
     end.

(** A request that passes the validation a reader-checking route does
    before it looks the reader up. *)
Definition passes_validation `{JsRuntime} (ep : Endpoint) (req : Request)
  : bool :=
  match ep with
  | POST_payments_create_payment_intent =>
      negb (is_nullish (body req))
      && valid_amount (prop (body req) "amount")
      && ToBoolean (prop (body req) "readerId")
  | POST_payments_process_payment =>
      negb (is_nullish (body req))
      && ToBoolean (prop (body req) "payment_intent")
  | POST_payments_create_and_process_payment =>
      negb (is_nullish (body req))
      && valid_amount (prop (body req) "amount")
  | _ => true
  end.

(** The reader id a reader-checking route looks up: from the body on
    create-payment-intent, from the path elsewhere. *)
Definition reader_id_of (ep : Endpoint) (req : Request) : JsValue :=
  match ep with
  | POST_payments_create_payment_intent => prop (body req) "readerId"
  | _ => assoc "readerId" (params req)
  end.

(** The SDK methods that only read: lookups and signature verification. *)
Definition read_only (m : SdkMethod) : bool :=
  match m with
  | terminal_readers_list | terminal_readers_retrieve
  | paymentIntents_retrieve | webhooks_constructEvent => true
  | _ => false
  end.

Definition returned (o : Outcome) : bool :=
  match o with
  | Returns _ => true
  | Throws _ => false
  end.

(** The reader check of the payment routes: a reader was found, and it is
    online or the request is simulated. *)
Definition reader_ready (simulated reader : JsValue) : bool :=
  ToBoolean reader
  && (ToBoolean simulated
      || strict_eq_string (prop reader "status") "online").

(** The validation and checks a handler makes before its next SDK call,
    given the values its earlier calls returned: [proceeds ep req returned]
    says whether they pass. Before the first call: a registration code or
    the simulated flag (register); a valid amount and a reader id
    (create-payment-intent); a payment intent id (process-payment); a valid
    amount (create-and-process-payment); nothing elsewhere. After the
    reader lookup: a reader found (simulate-payment), found and online
    (process-payment), found and online or simulated (the two create
    routes). Before sending the intent to the reader: an intent whose id
    can be read. *)
Definition proceeds `{JsRuntime} (ep : Endpoint) (req : Request)
    (returned : list JsValue) : bool :=
  let field k := prop (body req) k in
  match ep, returned with
  | POST_readers_register, [] =>
      negb (is_nullish (body req))
      && (ToBoolean (field "simulated")
          || ToBoolean (field "registration_code"))
  | POST_payments_create_payment_intent, [] =>
      negb (is_nullish (body req))
      && valid_amount (field "amount")
      && ToBoolean (field "readerId")
  | POST_payments_create_payment_intent, [reader] =>
      reader_ready (field "simulated") reader
  | POST_payments_process_payment, [] =>
      negb (is_nullish (body req)) && ToBoolean (field "payment_intent")
  | POST_payments_process_payment, [reader] =>
      ToBoolean reader && strict_eq_string (prop reader "status") "online"
  | POST_payments_simulate_payment, [reader] => ToBoolean reader
  | POST_payments_create_and_process_payment, [] =>
      negb (is_nullish (body req)) && valid_amount (field "amount")
  | POST_payments_create_and_process_payment, [reader] =>
      reader_ready (field "simulated") reader
  | POST_payments_create_and_process_payment, [reader; intent] =>
      negb (is_nullish intent)
  | _, _ => true
  end.

(** How many of a route's [n] remaining SDK calls a run makes, [os] being
    the outcomes it is handed: a call is made when the checks before it
    pass, and the run goes on to the next one only when it returned. *)
Fixpoint calls_made `{JsRuntime} (ep : Endpoint) (req : Request) (n : nat)
    (returned : list JsValue) (os : list Outcome) : nat :=
  match n with
  | O => O
  | S n' =>
      if proceeds ep req returned then
        S (match os with
           | Returns v :: os' =>
               calls_made ep req n' (returned ++ [v])%list os'
           | _ => O
           end)
      else O
  end.

(** The TypeError, if any, of the webhook's own reading of an event:
    [event.type] on [null] or [undefined], and for the two handled types
    [event.data.object] and the [id] of the payment intent. *)
Definition event_fault (ev : JsValue) : option JsError :=
  if is_nullish ev then Some (TypeError_read ev "type")
  else if handled_type (prop ev "type") then
    if is_nullish (prop ev "data") then
      Some (TypeError_read (prop ev "data") "object")
    else if is_nullish (prop (prop ev "data") "object") then
      Some (TypeError_read (prop (prop ev "data") "object") "id")
    else None
  else None.

(** What the webhook answers to a failed verification or an event it
    cannot read. *)
Definition webhook_error (e : JsError) : Response :=
  status_send 400 ("Webhook Error: " ++ message e).

(** The Number of the integer [q]; a zero takes the sign given. *)
Definition integer_Number (q : Z) (negative_zero : bool) : Number :=
  binary_normalize prec emax q 0 negative_zero.

(** [y] is [p] rounded to the nearest integer, halves going up: a finite
    [p = n * 2^e] with [e >= 0] is an integer already; with [e < 0], [y] is
    the integer [q] such that [q - 1/2 <= p < q + 1/2], that is
    [(2q - 1) * 2^(-e) <= 2n < (2q + 1) * 2^(-e)]; NaN, the infinities and
    the zeros are left as they are. *)
Definition nearest_integer (p y : Number) : Prop :=
  match p with
  | S754_finite s m e =>
      if 0 <=? e then y = p
      else
        exists q : Z,
          (2 * q - 1) * 2 ^ (- e)
          <= 2 * (if s then Z.neg m else Z.pos m)
          < (2 * q + 1) * 2 ^ (- e)
          /\ y = integer_Number q s
  | _ => y = p
  end.

(** * Properties *)

(** ** Symbolic execution of handlers *)

Lemma truthy_not_nullish (v : JsValue) :
  ToBoolean v = true -> is_nullish v = false.
Proof. destruct v; cbn; congruence. Qed.

Lemma ToBoolean_with_default_false (v : JsValue) :
  ToBoolean (with_default v (JBool false)) = ToBoolean v.
Proof. destruct v; reflexivity. Qed.

Lemma get_ok (v : JsValue) (k : string) :
  is_nullish v = false -> get v k = Ret (prop v k).
Proof. intros N. unfold get, read. rewrite N. reflexivity. Qed.

Lemma get_nullish (v : JsValue) (k : string) :
  is_nullish v = true -> get v k = Throw (TypeError_read v k).
Proof. intros N. unfold get, read. rewrite N. reflexivity. Qed.

Lemma destructure_ok (v : JsValue) (s k : string) :
  is_nullish v = false -> destructure v s k = Ret (prop v k).
Proof. intros N. unfold destructure. rewrite N. reflexivity. Qed.

Lemma destructure_nullish (v : JsValue) (s k : string) :
  is_nullish v = true ->
  destructure v s k = Throw (TypeError_destructure v k s).
Proof. intros N. unfold destructure. rewrite N. reflexivity. Qed.

(** One SDK answer: split on what the SDK returns for the call at hand. *)
Ltac call_step :=
  match goal with
  | |- context [let (_, _) := ?s in _] =>
      let E := fresh "E" in destruct s as [[?v|?e] ?w] eqn:E; cbn in *
  end.

(** One property read: split on whether the object read is nullish. *)
Ltac read_step :=
  match goal with
  | N : is_nullish ?v = false |- context [get ?v ?k] => rewrite (get_ok v k N)
  | N : is_nullish ?v = true |- context [get ?v ?k] =>
      rewrite (get_nullish v k N)
  | N : is_nullish ?v = false |- context [destructure ?v ?s ?k] =>
      rewrite (destructure_ok v s k N)
  | N : is_nullish ?v = true |- context [destructure ?v ?s ?k] =>
      rewrite (destructure_nullish v s k N)
  | |- context [get ?v ?k] => destruct (is_nullish v) eqn:?
  | |- context [destructure ?v ?s ?k] => destruct (is_nullish v) eqn:?
  end; cbn in *.

(** One [if]: split on its condition. *)
Ltac branch_step :=
  match goal with
  | |- context [if ?b then _ else _] =>
      let E := fresh "B" in destruct b eqn:E; cbn in *
  end.

(** One conversion to a number: split on whether it throws. *)
Ltac lift_step :=
  match goal with
  | |- context [lift ?x] => destruct x eqn:?
  end; cbn in *.

Ltac run :=
  cbn in *; repeat (first [call_step | read_step | branch_step | lift_step]).

(** One conversion to a number, split on [ToNumber] itself so that the
    comparison and the product of one amount share its outcome. *)
Ltac number_step :=
  match goal with
  | H : ToNumber ?a = _ |- context [ToNumber ?a] => rewrite H
  | |- context [lift (js_le ?a ?b)] => unfold js_le
  | |- context [lift (js_mul ?a ?b)] => unfold js_mul
  | |- context [ToNumber ?a] => destruct (ToNumber a) eqn:?
  end; cbn in *.

Ltac run_numbers :=
  cbn in *;
  repeat (first [call_step | read_step | number_step | branch_step]).

(** The tests a check is made of; [atom T k] hands [k] one that occurs
    in [T] and is not yet decided by [T] itself. *)
Ltac atom T k :=
  match T with
  | context [ToBoolean ?v] =>
      lazymatch T with
      | ToBoolean v = _ => fail
      | _ => k (ToBoolean v)
      end
  | context [is_nullish ?v] =>
      lazymatch T with
      | is_nullish v = _ => fail
      | _ => k (is_nullish v)
      end
  | context [strict_eq_string ?v ?s] =>
      lazymatch T with
      | strict_eq_string v s = _ => fail
      | _ => k (strict_eq_string v s)
      end
  | context [SFleb ?x ?y] =>
      lazymatch T with
      | SFleb x y = _ => fail
      | _ => k (SFleb x y)
      end
  | context [ToNumber ?a] =>
      lazymatch T with
      | ToNumber a = _ => fail
      | _ => k (ToNumber a)
      end
  end.

Ltac split_on t := destruct t eqn:?; cbn in *; try discriminate.

(** Decide every test left in the goal and the hypotheses. *)
Ltac atoms :=
  repeat match goal with
  | H : context [ToBoolean (with_default _ (JBool false))] |- _ =>
      rewrite ToBoolean_with_default_false in H
  end;
  repeat first
    [ match goal with |- ?G => atom G split_on end
    | match goal with H : ?T |- _ => atom T split_on end ].

Ltac unfold_handlers :=
  unfold handler, list_readers, register_reader, get_reader,
    create_payment_intent, capture_payment, cancel_payment, webhook,
    process_payment, simulate_payment, create_and_process_payment,
    payment_status, health, webhook_switch, await, amount_invalid.

(** ** Runs *)

Section Runs.
Context {W A : Type}.
Implicit Types (r : Run W A) (c : SdkCall) (o : Outcome) (l : LogEntry).

Lemma result_add_call c o r : result (add_call c o r) = result r.
Proof. destruct r; reflexivity. Qed.

Lemma outcomes_add_call c o r : outcomes (add_call c o r) = o :: outcomes r.
Proof. destruct r; reflexivity. Qed.

Lemma calls_add_call c o r : calls (add_call c o r) = c :: calls r.
Proof. destruct r; reflexivity. Qed.

Lemma world_add_call c o r : world (add_call c o r) = world r.
Proof. destruct r; reflexivity. Qed.

Lemma result_add_log l r : result (add_log l r) = result r.
Proof. destruct r; reflexivity. Qed.

Lemma outcomes_add_log l r : outcomes (add_log l r) = outcomes r.
Proof. destruct r; reflexivity. Qed.

Lemma calls_add_log l r : calls (add_log l r) = calls r.
Proof. destruct r; reflexivity. Qed.

Lemma world_add_log l r : world (add_log l r) = world r.
Proof. destruct r; reflexivity. Qed.

(** A run is determined by the outcomes it was handed. *)
Lemma exec_replay (sdk : Sdk W) (p : Prog A) :
  forall w, replay p (outcomes (exec sdk p w)) = Some (result (exec sdk p w)).
Proof.
  induction p as [a | e | c k IH | l k IH]; intros w; cbn.
  - reflexivity.
  - reflexivity.
  - destruct (sdk w c) as [o w'].
    rewrite outcomes_add_call, result_add_call. apply IH.
  - rewrite outcomes_add_log, result_add_log. apply IH.
Qed.

(** The world a run leaves is the one its SDK calls leave. *)
Lemma exec_world (sdk : Sdk W) (p : Prog A) :
  forall w,
    world (exec sdk p w)
    = fold_left (fun w' c => snd (sdk w' c)) (calls (exec sdk p w)) w.
Proof.
  induction p as [a | e | c k IH | l k IH]; intros w; cbn.
  - reflexivity.
  - reflexivity.
  - destruct (sdk w c) as [o w'] eqn:E.
    rewrite world_add_call, calls_add_call. cbn. rewrite E. apply IH.
  - rewrite world_add_log, calls_add_log. apply IH.
Qed.

End Runs.

(** The environment reaches a handler's program only inside the arguments
    of its SDK calls. *)
Lemma replay_env_irrelevant `{RT : JsRuntime} (env1 env2 : ProcessEnv)
    (ep : Endpoint) (req : Request) (os : list Outcome) :
  replay (handler env1 ep req) os = replay (handler env2 ep req) os.
Proof. destruct ep; reflexivity. Qed.

(** ** Numbers *)

(** [Math_round] picks the nearest integer: for [x = n / d] below 2^53 in
    magnitude with a fractional part, the integer [q] it returns satisfies
    [q - 1/2 <= x < q + 1/2]. *)
Lemma Math_round_nearest (s : bool) (m : positive) (e : Z) :
  e < 0 ->
  let d := 2 ^ (- e) in
  let n := if s then Z.neg m else Z.pos m in
  let q := (2 * n + d) / (2 * d) in
  Math_round (S754_finite s m e) = binary_normalize prec emax q 0 s
  /\ (2 * q - 1) * d <= 2 * n < (2 * q + 1) * d.
Proof.
  intros He d n q. split.
  - unfold Math_round. destruct (0 <=? e) eqn:L; [lia | reflexivity].
  - assert (Hd : 0 < d) by (apply Z.pow_pos_nonneg; lia).
    pose proof (Z.div_mod (2 * n + d) (2 * d) ltac:(lia)) as Hdiv.
    pose proof (Z.mod_pos_bound (2 * n + d) (2 * d) ltac:(lia)) as Hmod.
    fold q in Hdiv. nia.
Qed.

(** [Math_round] rounds to the nearest integer. *)
Lemma Math_round_is_nearest (p : Number) : nearest_integer p (Math_round p).
Proof.
  destruct p as [s | s | | s m e]; cbn; try reflexivity.
  destruct (0 <=? e) eqn:L; [reflexivity |].
  apply Z.leb_gt in L.
  exists ((2 * (if s then Z.neg m else Z.pos m) + 2 ^ (- e)) / (2 * 2 ^ (- e))).
  destruct (Math_round_nearest s m e L) as [Hround Hnear].
  split; [exact Hnear | reflexivity].
Qed.

Example Math_round_ties_up :
  Math_round (S754_finite false 5629499534213120 (-51)) = Number_of_Z 3
  /\ Math_round (S754_finite true 5629499534213120 (-51))
     = binary_normalize prec emax (-2) 0 false.
Proof. split; reflexivity. Qed.

(** 10.99 is forwarded as 1099; 0.615 as 62, since the binary64 product
    0.615 * 100 is exactly 61.5; an amount already in cents, 1000, as
    100000. *)
Example forwarded_amounts :
  Math_round (SFmul prec emax n10_99 hundred) = n1099
  /\ Math_round (SFmul prec emax n0_615 hundred) = n62
  /\ Math_round (SFmul prec emax n1000 hundred) = n100000.
Proof. repeat split; reflexivity. Qed.

Section Amounts.
Context `{RT : JsRuntime}.

Lemma invalid_amount_fails_validation (amount : JsValue) :
  absent_zero_or_negative amount = true ->
  amount_invalid amount = Ret true.
Proof.
  unfold amount_invalid.
  destruct amount as [| | b | x | s | l | f]; cbn;
    try discriminate; try reflexivity.
  destruct x as [s | s | | s m e]; cbn; try discriminate; try reflexivity.
  - destruct s; cbn; [reflexivity | discriminate].
  - destruct s; cbn; [reflexivity | discriminate].
Qed.

Lemma positive_amount_passes_validation (x : Number) :
  SFltb zero x = true ->
  amount_invalid (JNum x) = Ret false.
Proof.
  unfold amount_invalid.
  destruct x as [s | s | | s m e]; cbn; try discriminate.
  - destruct s; cbn; [discriminate | reflexivity].
  - destruct s; cbn; [discriminate | reflexivity].
Qed.

Lemma valid_amount_passes_validation (amount : JsValue) :
  valid_amount amount = true ->
  amount_invalid amount = Ret false.
Proof.
  unfold valid_amount, amount_invalid, js_not. intros Hvalid.
  apply andb_prop in Hvalid as [Htruthy Hle]. rewrite Htruthy. cbn.
  destruct (js_le amount zero) as [e | [|]]; try discriminate Hle.
  reflexivity.
Qed.

End Amounts.

(** ** SDK calls per route *)

(** C1, as stated, fails: a valid request to
    [POST /api/payments/create-and-process-payment/:readerId] with an
    online reader calls three distinct SDK methods (readers.retrieve,
    paymentIntents.create, readers.processPaymentIntent), and one to
    [POST /api/payments/create-payment-intent] calls two. *)
Lemma payment_routes_call_several_methods :
  methods
    (exec scripted
       (create_and_process_payment (RT := no_strings)
          (payment_request (JNum n10_99) false))
       [Returns online_reader; Returns sample_intent; Returns online_reader])
  = [terminal_readers_retrieve; paymentIntents_create;
     terminal_readers_processPaymentIntent]
  /\ methods
       (exec scripted
          (create_payment_intent (RT := no_strings)
             (payment_request (JNum n10_99) false))
          [Returns online_reader; Returns sample_intent])
     = [terminal_readers_retrieve; paymentIntents_create].
Proof. split; reflexivity. Qed.

(** C1, amended: whatever the request and whatever the SDK answers, the
    SDK methods a handler calls are an initial part of the fixed sequence
    written in that handler ([endpoint_methods]: one method for the reader
    list, register, reader status, capture, cancel, webhook and
    payment-status routes; two for create-payment-intent, process-payment
    and simulate-payment; three for create-and-process-payment; none for
    the health check), each called at most once and in order; the routes
    that validate nothing call at least the first. How far a run goes is
    fixed by the request and the outcomes ([calls_made]): each call is made
    exactly when every call before it returned and the validation and
    checks the handler makes before it pass ([proceeds]), and the run
    stops at the first check that fails or call that throws. *)
Theorem handler_calls_its_methods_in_order `{RT : JsRuntime}
    (env : ProcessEnv) (ep : Endpoint) (W : Type) (sdk : Sdk W) (w : W)
    (req : Request) :
  let r := exec sdk (handler env ep req) w in
  Prefix (methods r) (endpoint_methods ep)
  /\ (min_calls ep <= List.length (calls r))%nat
  /\ methods r
     = firstn
         (calls_made ep req (List.length (endpoint_methods ep)) []
            (outcomes r))
         (endpoint_methods ep).
Proof.
  intros r. subst r. split; [| split].
  - destruct ep; unfold methods, Prefix; unfold_handlers; run.
    all: eexists; reflexivity.
  - destruct ep; unfold_handlers; run.
    all: cbn; lia.
  - destruct ep; unfold methods; unfold_handlers; run_numbers.
    all: unfold valid_amount, reader_ready, js_le, js_not,
           strict_neq_string in *;
         cbn in *.
    all: atoms.
    all: try reflexivity; try discriminate; try congruence.
    all: match goal with
         | H1 : ToBoolean ?v = true, H2 : is_nullish ?v = true |- _ =>
             rewrite (truthy_not_nullish v H1) in H2; discriminate H2
         end.
Qed.

(** A request with a positive amount, a reader found online and every
    call returning goes through the three calls of
    create-and-process-payment; with no amount it makes none. *)
Lemma handler_calls_its_methods_in_order_witness :
  methods
    (exec scripted
       (handler (RT := no_strings) sample_env
          POST_payments_create_and_process_payment
          (payment_request (JNum n10_99) false))
       [Returns online_reader; Returns sample_intent; Returns online_reader])
  = endpoint_methods POST_payments_create_and_process_payment
  /\ methods
       (exec scripted
          (handler (RT := no_strings) sample_env
             POST_payments_create_and_process_payment
             (payment_request JUndefined false))
          [Returns online_reader; Returns sample_intent;
           Returns online_reader])
     = [].
Proof.
  split.
  - rewrite (proj2 (proj2
      (handler_calls_its_methods_in_order (RT := no_strings) sample_env
         POST_payments_create_and_process_payment (list Outcome) scripted
         [Returns online_reader; Returns sample_intent; Returns online_reader]
         (payment_request (JNum n10_99) false)))).
    reflexivity.
  - rewrite (proj2 (proj2
      (handler_calls_its_methods_in_order (RT := no_strings) sample_env
         POST_payments_create_and_process_payment (list Outcome) scripted
         [Returns online_reader; Returns sample_intent; Returns online_reader]
         (payment_request JUndefined false)))).
    reflexivity.
Defined.

(** ** Response envelopes *)



(** ** The webhook *)

Lemma event_fault_stripe_event (ev : JsValue) :
  stripe_event ev = true <-> event_fault ev = None.
Proof.
  unfold stripe_event, event_fault.
  destruct (is_nullish ev); cbn; [split; discriminate |].
  destruct (handled_type (prop ev "type")); [| split; reflexivity].
  destruct (is_nullish (prop ev "data")); cbn; [split; discriminate |].
  destruct (is_nullish (prop (prop ev "data") "object")); cbn;
    split; try discriminate; reflexivity.
Qed.

(** Every run of the webhook: one [constructEvent] call; its error is
    answered with 400 and the message; a returned event is answered with
    [{received: true}], unless reading the event itself throws, which the
    same [catch] block answers with 400 as well. *)
Lemma webhook_answer (env : ProcessEnv) (W : Type) (sdk : Sdk W) (w : W)
    (req : Request) :
  let c := constructEvent_call env req in
  let r := exec sdk (webhook env req) w in
  calls r = [c]
  /\ response r
     = Some match fst (sdk w c) with
            | Throws e => webhook_error e
            | Returns ev =>
                match event_fault ev with
                | Some e => webhook_error e
                | None => json received
                end
            end.
Proof.
  unfold constructEvent_call, event_fault, handled_type, webhook_error.
  unfold_handlers. cbn.
  call_step; [| split; reflexivity].
  run; try discriminate; split; reflexivity.
Qed.

(** C3, as stated, fails: [constructEvent] returns (the signature
    verifies) an event of a handled type without [data]; reading
    [event.data.object] throws inside the same [try] block, and the answer
    is 400 ["Webhook Error: ..."] although [constructEvent] did not
    throw. *)
Lemma webhook_unreadable_event :
  outcomes
    (exec scripted (webhook sample_env signed_request)
       [Returns (JObj [("type", JStr "payment_intent.succeeded")])])
  = [Returns (JObj [("type", JStr "payment_intent.succeeded")])]
  /\ response
       (exec scripted (webhook sample_env signed_request)
          [Returns (JObj [("type", JStr "payment_intent.succeeded")])])
     = Some (status_send 400
               "Webhook Error: Cannot read properties of undefined (reading 'object')").
Proof. split; reflexivity. Qed.

(** C3, amended: the webhook calls [stripe.webhooks.constructEvent]
    exactly once and nothing else of the SDK, with no second attempt. It
    answers 400 with body ["Webhook Error: <message>"] if and only if
    something throws inside its [try] block: [constructEvent] itself, or
    the handler's own reading of the returned event ([event_fault]: the
    event is [null] or [undefined], or its type is
    [payment_intent.succeeded] or [payment_intent.payment_failed] and it
    has no [data.object]); the message is that error's. It answers 200
    with [{received: true}] otherwise. *)
Theorem webhook_answers_400_iff_something_throws (env : ProcessEnv)
    (W : Type) (sdk : Sdk W) (w : W) (req : Request) :
  let c := constructEvent_call env req in
  let o := fst (sdk w c) in
  let r := exec sdk (webhook env req) w in
  calls r = [c]
  /\ response r
     = Some match o with
            | Throws e => status_send 400 ("Webhook Error: " ++ message e)
            | Returns ev =>
                match event_fault ev with
                | Some e => status_send 400 ("Webhook Error: " ++ message e)
                | None => mkResponse 200 (Json received)
                end
            end
  /\ ((exists res, response r = Some res /\ statusCode res = 400)
      <-> (exists e, o = Throws e)
          \/ (exists ev e, o = Returns ev /\ event_fault ev = Some e))
  /\ ((exists res, response r = Some res /\ statusCode res = 200)
      <-> exists ev, o = Returns ev /\ event_fault ev = None).
Proof.
  intros c o r.
  destruct (webhook_answer env W sdk w req) as [Hcalls Hanswer].
  fold c r in Hcalls, Hanswer. fold o in Hanswer.
  unfold webhook_error, json in Hanswer.
  split; [exact Hcalls |]. split; [exact Hanswer |].
  destruct o as [ev | e]; [destruct (event_fault ev) as [e |] eqn:F |];
    rewrite Hanswer.
  - split; split.
    + intros _. right. exists ev, e. split; [reflexivity | exact F].
    + intros _. eexists. split; reflexivity.
    + intros [res [[= <-] Hcode]]. discriminate Hcode.
    + intros [ev' [[= <-] F']]. congruence.
  - split; split.
    + intros [res [[= <-] Hcode]]. discriminate Hcode.
    + intros [[e He] | [ev' [e [[= <-] F']]]]; [discriminate He | congruence].
    + intros _. exists ev. split; [reflexivity | exact F].
    + intros _. eexists. split; reflexivity.
  - split; split.
    + intros _. left. exists e. reflexivity.
    + intros _. eexists. split; reflexivity.
    + intros [res [[= <-] Hcode]]. discriminate Hcode.
    + intros [ev [He _]]. discriminate He.
Qed.

(** A verified event that reads well is answered 200; a failed
    verification 400 with the SDK's message. *)
Lemma webhook_answers_400_iff_something_throws_witness :
  (exists res,
     response
       (exec scripted (webhook sample_env signed_request)
          [Returns succeeded_event]) = Some res
     /\ statusCode res = 200)
  /\ (exists res,
        response
          (exec scripted (webhook sample_env signed_request)
             [Throws (mkError "StripeSignatureVerificationError" "bad signature")])
        = Some res
        /\ statusCode res = 400).
Proof.
  split.
  - apply (proj2 (proj2 (proj2
      (webhook_answers_400_iff_something_throws sample_env (list Outcome)
         scripted [Returns succeeded_event] signed_request)))).
    exists succeeded_event. split; reflexivity.
  - apply (proj1 (proj2 (proj2
      (webhook_answers_400_iff_something_throws sample_env (list Outcome)
         scripted
         [Throws (mkError "StripeSignatureVerificationError" "bad signature")]
         signed_request)))).
    left. eexists. reflexivity.
Defined.

(** C9, as stated, fails: a request whose signature verifies, carrying an
    event of type [payment_intent.payment_failed] without [data], is not
    answered [{received: true}] but with the text of the TypeError. *)
Lemma verified_event_without_data_not_acknowledged :
  outcomes
    (exec scripted (webhook sample_env signed_request)
       [Returns (JObj [("id", JStr "evt_2");
                       ("type", JStr "payment_intent.payment_failed")])])
  = [Returns (JObj [("id", JStr "evt_2");
                    ("type", JStr "payment_intent.payment_failed")])]
  /\ response
       (exec scripted (webhook sample_env signed_request)
          [Returns (JObj [("id", JStr "evt_2");
                          ("type", JStr "payment_intent.payment_failed")])])
     = Some (status_send 400
               "Webhook Error: Cannot read properties of undefined (reading 'object')").
Proof. split; reflexivity. Qed.

(** C9, amended: when the signature verifies and the handler can read the
    event [constructEvent] returns (it is not [null], and it carries
    [data.object] when its type is one of the two handled), the body sent
    is exactly [{received: true}], whatever the event's type; for
    [payment_intent.succeeded] and [payment_intent.payment_failed] the
    [switch] does assemble the richer object (status, payment intent id,
    amount, currency, ...), and that object is not what is sent. A
    verified event the handler cannot read is answered 400 with
    ["Webhook Error: <the TypeError's message>"]. *)
Theorem webhook_sends_received_only (env : ProcessEnv) (W : Type)
    (sdk : Sdk W) (w : W) (req : Request) (ev : JsValue) :
  fst (sdk w (constructEvent_call env req)) = Returns ev ->
  let pi := prop (prop ev "data") "object" in
  let r := exec sdk (webhook env req) w in
  (event_fault ev = None ->
   response r = Some (json received)
   /\ (strict_eq_string (prop ev "type") "payment_intent.succeeded" = true ->
       forall w', result (exec sdk (webhook_switch ev) w')
                  = inr (succeeded_response pi))
   /\ (strict_eq_string (prop ev "type") "payment_intent.payment_failed" = true ->
       forall w', result (exec sdk (webhook_switch ev) w')
                  = inr (failed_response pi)))
  /\ (forall e, event_fault ev = Some e ->
        response r = Some (status_send 400 ("Webhook Error: " ++ message e))).
Proof.
  intros Hret pi r.
  destruct (webhook_answer env W sdk w req) as [_ Hanswer].
  fold r in Hanswer. cbv zeta in Hanswer. rewrite Hret in Hanswer.
  split.
  - intros Hfault. rewrite Hfault in Hanswer.
    split; [exact Hanswer |].
    apply event_fault_stripe_event in Hfault.
    unfold stripe_event, handled_type in Hfault.
    apply andb_prop in Hfault as [Hnn Hpayload].
    apply negb_true_iff in Hnn.
    unfold webhook_switch, succeeded_response, failed_response.
    rewrite (get_ok _ _ Hnn). cbn.
    split; intros Htype w'.
    + rewrite Htype in *. cbn in Hpayload.
      apply andb_prop in Hpayload as [Hdata Hobject].
      apply negb_true_iff in Hdata, Hobject.
      rewrite (get_ok _ _ Hnn). cbn.
      rewrite (get_ok _ _ Hdata). cbn.
      rewrite !(get_ok _ _ Hobject). reflexivity.
    + rewrite Htype, orb_true_r in Hpayload.
      apply andb_prop in Hpayload as [Hdata Hobject].
      apply negb_true_iff in Hdata, Hobject.
      destruct (strict_eq_string (prop ev "type") "payment_intent.succeeded")
        eqn:S.
      * destruct (prop ev "type") as [| | | | t | |]; try discriminate S.
        cbn in S, Htype. apply String.eqb_eq in S, Htype. congruence.
      * rewrite Htype.
        rewrite (get_ok _ _ Hnn). cbn.
        rewrite (get_ok _ _ Hdata). cbn.
        rewrite !(get_ok _ _ Hobject). reflexivity.
  - intros e Hfault. rewrite Hfault in Hanswer. exact Hanswer.
Qed.

Lemma webhook_sends_received_only_witness :
  response
    (exec scripted (webhook sample_env signed_request) [Returns succeeded_event])
  = Some (json received)
  /\ result (exec scripted (webhook_switch succeeded_event) [])
     = inr (succeeded_response sample_intent).
Proof.
  pose proof (proj1
    (webhook_sends_received_only sample_env (list Outcome) scripted
       [Returns succeeded_event] signed_request succeeded_event eq_refl)
    eq_refl) as [Hsent [Hbuilt _]].
  split; [exact Hsent | exact (Hbuilt eq_refl [])].
Defined.

(** ** Validation before the vendor call *)

(** C4: a request to create-payment-intent or create-and-process-payment
    whose body has its amount absent, zero or negative is answered 400 with
    [{status: "error", message: "Valid amount is required"}], and no SDK
    method is called. *)
Theorem invalid_amount_rejected_before_sdk `{RT : JsRuntime} (W : Type)
    (sdk : Sdk W) (w : W) (req : Request) (fields : list (string * JsValue)) :
  body req = JObj fields ->
  absent_zero_or_negative (lookup "amount" fields) = true ->
  (response (exec sdk (create_payment_intent req) w) = Some amount_required
   /\ calls (exec sdk (create_payment_intent req) w) = [])
  /\ (response (exec sdk (create_and_process_payment req) w)
      = Some amount_required
      /\ calls (exec sdk (create_and_process_payment req) w) = []).
Proof.
  intros Hbody Hamount.
  apply invalid_amount_fails_validation in Hamount.
  unfold create_payment_intent, create_and_process_payment, amount_required.
  rewrite Hbody. cbn.
  rewrite Hamount. cbn. repeat split.
Qed.

Lemma invalid_amount_rejected_before_sdk_witness :
  absent_zero_or_negative (JNum minus5) = true
  /\ response
       (exec scripted
          (create_payment_intent (RT := no_strings)
             (payment_request (JNum minus5) true))
          [Returns online_reader; Returns sample_intent])
     = Some amount_required
  /\ calls
       (exec scripted
          (create_and_process_payment (RT := no_strings)
             (payment_request (JNum minus5) true))
          [Returns online_reader; Returns sample_intent])
     = [].
Proof.
  pose proof (invalid_amount_rejected_before_sdk (RT := no_strings)
                (list Outcome) scripted
                [Returns online_reader; Returns sample_intent]
                (payment_request (JNum minus5) true) _ eq_refl eq_refl)
    as [[Hsent _] [_ Hcalls]].
  split; [reflexivity | split; [exact Hsent | exact Hcalls]].
Defined.

(** ** Reader registration *)

(** C6: [POST /api/readers/register] answers 400 with
    ["Registration code is required for physical readers"] if and only if
    the body's [simulated] flag is false or absent (falsy) and its
    [registration_code] is missing or empty (falsy). When [simulated] is
    set the code is forced to ["simulated-wpe"], the 400 branch is out of
    reach and [stripe.terminal.readers.create] is called. *)
Theorem register_requires_code_unless_simulated (W : Type) (sdk : Sdk W)
    (w : W) (req : Request) (fields : list (string * JsValue)) :
  body req = JObj fields ->
  let simulated := lookup "simulated" fields in
  let registration_code := lookup "registration_code" fields in
  let r := exec sdk (register_reader req) w in
  (response r = Some registration_required
   <-> ToBoolean simulated = false /\ ToBoolean registration_code = false)
  /\ (ToBoolean simulated = true ->
      calls r =
        [mkCall terminal_readers_create
           [JObj [("registration_code", JStr "simulated-wpe");
                  ("label",
                   js_or (lookup "label" fields) (JStr "Simulated Reader"));
                  ("location",
                   js_or (lookup "location" fields) (JStr "test_mode"))]]]).
Proof.
  intros Hbody simulated registration_code r. subst r.
  unfold registration_required, register_reader, await, js_not.
  rewrite Hbody. cbn.
  rewrite ToBoolean_with_default_false.
  fold simulated registration_code.
  destruct (ToBoolean simulated) eqn:S; cbn.
  - call_step;
      (split; [split; [discriminate | intros [? _]; discriminate]
              | reflexivity]).
  - destruct (ToBoolean registration_code) eqn:C; cbn.
    + call_step;
        (split; [split; [discriminate | intros [_ ?]; discriminate]
                | discriminate]).
    + split; [split; [auto | reflexivity] | discriminate].
Qed.

Lemma register_requires_code_unless_simulated_witness :
  (response (exec scripted (register_reader (register_request false)) [])
   = Some registration_required)
  /\ methods
       (exec scripted (register_reader (register_request true))
          [Returns online_reader])
     = [terminal_readers_create].
Proof.
  split.
  - apply (proj1
      (register_requires_code_unless_simulated (list Outcome) scripted []
         (register_request false) _ eq_refl)).
    split; reflexivity.
  - unfold methods.
    rewrite (proj2
      (register_requires_code_unless_simulated (list Outcome) scripted
         [Returns online_reader] (register_request true) _ eq_refl) eq_refl).
    reflexivity.
Defined.

(** ** Listing readers *)

(** C7: [GET /api/readers] calls [stripe.terminal.readers.list] exactly
    once. When the call returns a list object, the answer is 200 with
    [{status: "success", readers: <the result's data, as it is>}]; when it
    throws, the answer is 500 with
    [{status: "error", message: <the error's message>}]. *)
Theorem list_readers_passes_through (W : Type) (sdk : Sdk W) (w : W)
    (req : Request) :
  let r := exec sdk (list_readers req) w in
  calls r = [list_call]
  /\ (forall result,
        fst (sdk w list_call) = Returns result ->
        is_nullish result = false ->
        response r =
          Some (status_json 200
                  (JObj [("status", JStr "success");
                         ("readers", prop result "data")])))
  /\ (forall e,
        fst (sdk w list_call) = Throws e ->
        response r =
          Some (status_json 500
                  (JObj [("status", JStr "error");
                         ("message", JStr (message e))]))).
Proof.
  intros r. subst r. unfold list_readers, list_call, await. cbn.
  call_step.
  - run.
    + split; [reflexivity |]. split; [| discriminate].
      intros result [= <-]. congruence.
    + split; [reflexivity |]. split; [| discriminate].
      intros result [= <-] _. reflexivity.
  - split; [reflexivity |]. split; [discriminate |].
    intros e' [= <-]. reflexivity.
Qed.

Lemma list_readers_passes_through_witness :
  response
    (exec scripted (list_readers signed_request)
       [Returns (JObj [("object", JStr "list");
                       ("data", JArr [offline_reader; online_reader])])])
  = Some (status_json 200
            (JObj [("status", JStr "success");
                   ("readers", JArr [offline_reader; online_reader])]))
  /\ response
       (exec scripted (list_readers signed_request)
          [Throws (mkError "StripeAuthenticationError" "Invalid API Key")])
     = Some (status_json 500 (error_envelope "Invalid API Key")).
Proof.
  split.
  - apply (proj1 (proj2
      (list_readers_passes_through (list Outcome) scripted
         [Returns (JObj [("object", JStr "list");
                         ("data", JArr [offline_reader; online_reader])])]
         signed_request)) _ eq_refl eq_refl).
  - apply (proj2 (proj2
      (list_readers_passes_through (list Outcome) scripted
         [Throws (mkError "StripeAuthenticationError" "Invalid API Key")]
         signed_request)) _ eq_refl).
Defined.

(** ** The amount forwarded to the SDK *)

Section Forwarding.
Context `{RT : JsRuntime}.
Variables (W : Type) (sdk : Sdk W) (w : W) (req : Request).
Variables (fields : list (string * JsValue)) (x : Number).
Hypothesis Hbody : body req = JObj fields.
Hypothesis Hamount : lookup "amount" fields = JNum x.
Hypothesis Hpos : SFltb zero x = true.

Ltac created_only :=
  let c := fresh "c" in
  let Hin := fresh "Hin" in
  let Hm := fresh "Hm" in
  intros c Hin Hm;
  repeat (destruct Hin as [<- | Hin];
          [try discriminate Hm; try reflexivity |]);
  destruct Hin.

Lemma create_payment_intent_forwards :
  let readerId := lookup "readerId" fields in
  let r := exec sdk (create_payment_intent req) w in
  (forall c, In c (calls r) -> method c = paymentIntents_create ->
             args c = [forwarded x (lookup "currency" fields) readerId])
  /\ (forall reader,
        ToBoolean readerId = true ->
        fst (sdk w (retrieve_call readerId)) = Returns reader ->
        ToBoolean reader = true ->
        ToBoolean (lookup "simulated" fields)
        || strict_eq_string (prop reader "status") "online" = true ->
        calls r =
          [retrieve_call readerId;
           mkCall paymentIntents_create
             [forwarded x (lookup "currency" fields) readerId]]).
Proof.
  intros readerId r. subst r.
  unfold create_payment_intent, await, js_not, forwarded, retrieve_call,
    payment_intent_params, js_mul, strict_neq_string.
  rewrite Hbody. cbn. rewrite Hamount.
  rewrite (positive_amount_passes_validation x Hpos). cbn.
  rewrite ToBoolean_with_default_false. fold readerId.
  destruct (ToBoolean readerId) eqn:R; cbn.
  2:{ split; [intros c [] | discriminate]. }
  destruct (sdk w (mkCall terminal_readers_retrieve [readerId]))
    as [[reader | e] w1]; cbn.
  2:{ split; [created_only | discriminate]. }
  destruct (ToBoolean reader) eqn:T; cbn.
  2:{ split; [created_only |]. intros reader' _ [= <-]. congruence. }
  rewrite (get_ok _ _ (truthy_not_nullish _ T)). cbn.
  destruct (ToBoolean (lookup "simulated" fields)) eqn:S; cbn.
  - call_step; (split; [created_only | reflexivity]).
  - destruct (strict_eq_string (prop reader "status") "online") eqn:O; cbn.
    + call_step; (split; [created_only | reflexivity]).
    + split; [created_only |].
      intros reader' _ [= <-] _. rewrite O. discriminate.
Qed.

Lemma create_and_process_payment_forwards :
  let readerId := assoc "readerId" (params req) in
  let r := exec sdk (create_and_process_payment req) w in
  (forall c, In c (calls r) -> method c = paymentIntents_create ->
             args c = [forwarded x (lookup "currency" fields) readerId])
  /\ (forall reader,
        fst (sdk w (retrieve_call readerId)) = Returns reader ->
        ToBoolean reader = true ->
        ToBoolean (lookup "simulated" fields)
        || strict_eq_string (prop reader "status") "online" = true ->
        nth_error (calls r) 1 =
          Some (mkCall paymentIntents_create
                  [forwarded x (lookup "currency" fields) readerId])).
Proof.
  intros readerId r. subst r.
  unfold create_and_process_payment, await, js_not, forwarded, retrieve_call,
    payment_intent_params, js_mul, strict_neq_string.
  rewrite Hbody. cbn. rewrite Hamount.
  rewrite (positive_amount_passes_validation x Hpos). cbn.
  rewrite ToBoolean_with_default_false. fold readerId.
  destruct (sdk w (mkCall terminal_readers_retrieve [readerId]))
    as [[reader | e] w1]; cbn.
  2:{ split; [created_only | discriminate]. }
  destruct (ToBoolean reader) eqn:T; cbn.
  2:{ split; [created_only |]. intros reader' [= <-]. congruence. }
  rewrite (get_ok _ _ (truthy_not_nullish _ T)). cbn.
  destruct (ToBoolean (lookup "simulated" fields)) eqn:S; cbn.
  - run; (split; [created_only | reflexivity]).
  - destruct (strict_eq_string (prop reader "status") "online") eqn:O; cbn.
    + run; (split; [created_only | reflexivity]).
    + split; [created_only |].
      intros reader' [= <-] _. rewrite O. discriminate.
Qed.

End Forwarding.

(** C8: for a request to create-payment-intent or
    create-and-process-payment whose amount is a positive number [a], the
    only argument ever passed to [stripe.paymentIntents.create] has as its
    [amount] the binary64 product [a * 100] rounded to the nearest
    integer, halves going up (so an amount given in cents is multiplied by
    100 again), [payment_method_types = ["card_present"]],
    [capture_method = "manual"] and [metadata.readerId] the request's
    reader id; and that call is made once the reader is retrieved and is
    online or the request is simulated. *)
Theorem amount_forwarded_times_hundred `{RT : JsRuntime} (W : Type)
    (sdk : Sdk W) (w : W) (req : Request) (fields : list (string * JsValue))
    (a : Number) :
  body req = JObj fields ->
  lookup "amount" fields = JNum a ->
  SFltb zero a = true ->
  exists cents : Number,
    nearest_integer (SFmul prec emax a hundred) cents
    /\ let currency := lookup "currency" fields in
       let simulated := lookup "simulated" fields in
       let intent readerId :=
         JObj [("amount", JNum cents);
               ("currency", with_default currency (JStr "usd"));
               ("payment_method_types", JArr [JStr "card_present"]);
               ("capture_method", JStr "manual");
               ("metadata", JObj [("readerId", readerId)])] in
       let go_ahead reader :=
         ToBoolean reader = true
         /\ ToBoolean simulated
            || strict_eq_string (prop reader "status") "online" = true in
       (let readerId := lookup "readerId" fields in
        let r := exec sdk (create_payment_intent req) w in
        (forall c, In c (calls r) -> method c = paymentIntents_create ->
                   args c = [intent readerId])
        /\ (forall reader,
              ToBoolean readerId = true ->
              fst (sdk w (retrieve_call readerId)) = Returns reader ->
              go_ahead reader ->
              nth_error (calls r) 1
              = Some (mkCall paymentIntents_create [intent readerId])))
       /\ (let readerId := assoc "readerId" (params req) in
           let r := exec sdk (create_and_process_payment req) w in
           (forall c, In c (calls r) -> method c = paymentIntents_create ->
                      args c = [intent readerId])
           /\ (forall reader,
                 fst (sdk w (retrieve_call readerId)) = Returns reader ->
                 go_ahead reader ->
                 nth_error (calls r) 1
                 = Some (mkCall paymentIntents_create [intent readerId]))).
Proof.
  intros Hbody Hamount Hpos.
  exists (Math_round (SFmul prec emax a hundred)).
  split; [apply Math_round_is_nearest |].
  intros currency simulated intent go_ahead.
  split.
  - destruct (create_payment_intent_forwards W sdk w req fields a
                Hbody Hamount Hpos) as [Honly Hmade].
    split; [exact Honly |].
    intros reader Hid Hret [Htruthy Hgo].
    cbv zeta in Hmade. rewrite (Hmade reader Hid Hret Htruthy Hgo).
    reflexivity.
  - destruct (create_and_process_payment_forwards W sdk w req fields a
                Hbody Hamount Hpos) as [Honly Hmade].
    split; [exact Honly |].
    intros reader Hret [Htruthy Hgo].
    exact (Hmade reader Hret Htruthy Hgo).
Qed.

(** An amount of 0.615: the binary64 product 0.615 * 100 is 61.5, and the
    intent is created for 62. *)
Lemma amount_forwarded_times_hundred_witness :
  SFltb zero n0_615 = true
  /\ nth_error
       (calls
          (exec scripted
             (create_and_process_payment (RT := no_strings)
                (payment_request (JNum n0_615) false))
             [Returns online_reader; Returns sample_intent;
              Returns online_reader]))
       1
     = Some (mkCall paymentIntents_create
               [JObj [("amount", JNum n62);
                      ("currency", JStr "usd");
                      ("payment_method_types", JArr [JStr "card_present"]);
                      ("capture_method", JStr "manual");
                      ("metadata", JObj [("readerId", JStr "tmr_1")])]]).
Proof.
  split; [reflexivity |].
  destruct (amount_forwarded_times_hundred (RT := no_strings) (list Outcome)
              scripted
              [Returns online_reader; Returns sample_intent;
               Returns online_reader]
              (payment_request (JNum n0_615) false) _ n0_615
              eq_refl eq_refl eq_refl) as [cents [Hnearest Hcalls]].
  assert (Hcents : cents = n62).
  { change (SFmul prec emax n0_615 hundred)
      with (S754_finite false 8655355533852672 (-47)) in Hnearest.
    unfold nearest_integer in Hnearest.
    change (0 <=? -47) with false in Hnearest.
    destruct Hnearest as [q [Hq ->]].
    change (2 ^ (- -47)) with 140737488355328 in Hq.
    assert (q = 62) as -> by lia. reflexivity. }
  subst cents.
  exact (proj2 (proj2 Hcalls) online_reader eq_refl (conj eq_refl eq_refl)).
Defined.

(** ** The online check *)

(** C10: [POST /api/payments/process-payment/:readerId] checks that the
    reader is online whatever the body says: when the reader retrieved is
    not null and its status is not ["online"], the answer is 400 with
    [{status: "error", message: "Reader is not online"}] and
    [processPaymentIntent] is not called, also when the body carries
    [simulated: true]; with that flag and the same reader,
    create-and-process-payment and create-payment-intent skip the check
    and go on to create the payment intent. *)
Theorem process_payment_requires_online_reader `{RT : JsRuntime} (W : Type)
    (sdk : Sdk W) (w : W) (req : Request) (fields : list (string * JsValue))
    (reader : JsValue) :
  body req = JObj fields ->
  ToBoolean reader = true ->
  strict_neq_string (prop reader "status") "online" = true ->
  (let readerId := assoc "readerId" (params req) in
   let r := exec sdk (process_payment req) w in
   ToBoolean (lookup "payment_intent" fields) = true ->
   fst (sdk w (retrieve_call readerId)) = Returns reader ->
   response r = Some not_online /\ calls r = [retrieve_call readerId])
  /\ (let readerId := assoc "readerId" (params req) in
      let r := exec sdk (create_and_process_payment req) w in
      ToBoolean (lookup "simulated" fields) = true ->
      positive_number (lookup "amount" fields) = true ->
      fst (sdk w (retrieve_call readerId)) = Returns reader ->
      nth_error (methods r) 1 = Some paymentIntents_create)
  /\ (let readerId := lookup "readerId" fields in
      let r := exec sdk (create_payment_intent req) w in
      ToBoolean (lookup "simulated" fields) = true ->
      positive_number (lookup "amount" fields) = true ->
      ToBoolean readerId = true ->
      fst (sdk w (retrieve_call readerId)) = Returns reader ->
      nth_error (methods r) 1 = Some paymentIntents_create).
Proof.
  intros Hbody Htruthy Hoff.
  pose proof (truthy_not_nullish _ Htruthy) as Hnn.
  unfold retrieve_call, methods.
  split; [| split]; cbv zeta.
  - intros Hpi Hret.
    unfold process_payment, await, js_not, not_online. rewrite Hbody. cbn.
    rewrite Hpi. cbn.
    destruct (sdk w _) as [o w1]. cbn in Hret. subst o. cbn.
    rewrite Htruthy. cbn. rewrite (get_ok _ _ Hnn). cbn.
    rewrite Hoff. cbn. split; reflexivity.
  - intros Hsim Hamount Hret.
    destruct (lookup "amount" fields) as [| | b | x | s | l | f] eqn:A;
      try discriminate Hamount.
    cbn in Hamount.
    unfold create_and_process_payment, await, js_not. rewrite Hbody. cbn.
    rewrite A, (positive_amount_passes_validation x Hamount). cbn.
    destruct (sdk w _) as [o w1]. cbn in Hret. subst o. cbn.
    rewrite Htruthy. cbn. rewrite (get_ok _ _ Hnn). cbn.
    rewrite ToBoolean_with_default_false, Hsim. cbn.
    run; reflexivity.
  - intros Hsim Hamount Hid Hret.
    destruct (lookup "amount" fields) as [| | b | x | s | l | f] eqn:A;
      try discriminate Hamount.
    cbn in Hamount.
    unfold create_payment_intent, await, js_not. rewrite Hbody. cbn.
    rewrite A, (positive_amount_passes_validation x Hamount). cbn.
    rewrite Hid. cbn.
    destruct (sdk w _) as [o w1]. cbn in Hret. subst o. cbn.
    rewrite Htruthy. cbn. rewrite (get_ok _ _ Hnn). cbn.
    rewrite ToBoolean_with_default_false, Hsim. cbn.
    run; reflexivity.
Qed.

Lemma process_payment_requires_online_reader_witness :
  (response
     (exec scripted
        (process_payment (payment_request (JNum n10_99) true))
        [Returns offline_reader; Returns online_reader])
   = Some not_online
   /\ calls
        (exec scripted
           (process_payment (payment_request (JNum n10_99) true))
           [Returns offline_reader; Returns online_reader])
      = [retrieve_call (JStr "tmr_1")])
  /\ nth_error
       (methods
          (exec scripted
             (create_and_process_payment (RT := no_strings)
                (payment_request (JNum n10_99) true))
             [Returns offline_reader; Returns sample_intent;
              Returns online_reader]))
       1
     = Some paymentIntents_create.
Proof.
  split.
  - apply (proj1
      (process_payment_requires_online_reader (RT := no_strings)
         (list Outcome) scripted
         [Returns offline_reader; Returns online_reader]
         (payment_request (JNum n10_99) true) _ offline_reader
         eq_refl eq_refl eq_refl) eq_refl eq_refl).
  - apply (proj1 (proj2
      (process_payment_requires_online_reader (RT := no_strings)
         (list Outcome) scripted
         [Returns offline_reader; Returns sample_intent; Returns online_reader]
         (payment_request (JNum n10_99) true) _ offline_reader
         eq_refl eq_refl eq_refl)) eq_refl eq_refl eq_refl).
Defined.

(** * Further properties of the handlers *)

(** ** Errors of the SDK *)

(** X1: on every route that answers with the envelope, an SDK call that
    throws ends the run: the answer is 500 with the thrown error's message
    as it is, every earlier call of the run had returned, and no call
    follows. *)
Theorem sdk_error_answers_500 `{RT : JsRuntime} (env : ProcessEnv)
    (ep : Endpoint) (W : Type) (sdk : Sdk W) (w : W) (req : Request)
    (e : JsError) :
  envelope_route ep = true ->
  let r := exec sdk (handler env ep req) w in
  In (Throws e) (outcomes r) ->
  response r = Some (server_error e)
  /\ exists before,
      outcomes r = (before ++ [Throws e])%list
      /\ forallb returned before = true.
Proof.
  intros Hep r. subst r. unfold server_error.
  destruct ep; try discriminate Hep; clear Hep; unfold_handlers; run;
    intros Hin;
    repeat match goal with
    | H : _ \/ _ |- _ => destruct H
    | H : False |- _ => destruct H
    | H : Returns _ = Throws _ |- _ => discriminate H
    | H : Throws _ = Throws _ |- _ => injection H as H; subst
    end.
  all: split; [reflexivity |].
  all: first [ exists []; split; reflexivity
             | eexists [_]; split; reflexivity
             | eexists [_; _]; split; reflexivity ].
Qed.

Lemma sdk_error_answers_500_witness :
  response
    (exec scripted
       (handler (RT := no_strings) sample_env
          POST_payments_create_and_process_payment
          (payment_request (JNum n10_99) false))
       [Returns online_reader; Returns sample_intent;
        Throws (mkError "StripeInvalidRequestError" "Reader is busy")])
  = Some (status_json 500 (error_envelope "Reader is busy")).
Proof.
  apply (sdk_error_answers_500 (RT := no_strings) sample_env
           POST_payments_create_and_process_payment (list Outcome) scripted
           [Returns online_reader; Returns sample_intent;
            Throws (mkError "StripeInvalidRequestError" "Reader is busy")]
           (payment_request (JNum n10_99) false)
           (mkError "StripeInvalidRequestError" "Reader is busy") eq_refl).
  cbn. right. right. left. reflexivity.
Defined.

(** X5: on the envelope routes the console is written exactly when an
    exception is caught: an answer other than 500 logs nothing, and a 500
    comes with one [console.error] entry whose error is the one whose
    message is sent. *)
Theorem errors_logged_once `{RT : JsRuntime} (env : ProcessEnv)
    (ep : Endpoint) (W : Type) (sdk : Sdk W) (w : W) (req : Request) :
  envelope_route ep = true ->
  let r := exec sdk (handler env ep req) w in
  exists res,
    response r = Some res
    /\ ((console r = [] /\ statusCode res <> 500)
        \/ exists t e,
            console r = [mkLog console_error t (LogError e)]
            /\ res = server_error e).
Proof.
  intros Hep r. subst r. unfold server_error.
  destruct ep; try discriminate Hep; clear Hep; unfold_handlers; run.
  all: eexists; split; [reflexivity |].
  all: first [ left; split; [reflexivity | discriminate]
             | right; do 2 eexists; split; reflexivity ].
Qed.

Lemma errors_logged_once_witness :
  exists res,
    response
      (exec scripted
         (handler (RT := no_strings) sample_env GET_readers signed_request)
         [Throws (mkError "StripeConnectionError" "timeout")])
    = Some res
    /\ ((console
           (exec scripted
              (handler (RT := no_strings) sample_env GET_readers signed_request)
              [Throws (mkError "StripeConnectionError" "timeout")]) = []
         /\ statusCode res <> 500)
        \/ exists t e,
            console
              (exec scripted
                 (handler (RT := no_strings) sample_env GET_readers
                    signed_request)
                 [Throws (mkError "StripeConnectionError" "timeout")])
            = [mkLog console_error t (LogError e)]
            /\ res = server_error e).
Proof.
  exact (errors_logged_once (RT := no_strings) sample_env GET_readers
           (list Outcome) scripted
           [Throws (mkError "StripeConnectionError" "timeout")]
           signed_request eq_refl).
Defined.

(** ** Status codes *)

(** X2: the status codes a route answers with are those written in its
    handler and no other ([endpoint_statuses]): every run answers with one
    of them, and each of them is the answer of some run. In particular
    simulate-payment never answers 400 and the webhook never 500. *)
Theorem status_codes_exact `{RT : JsRuntime} (env : ProcessEnv)
    (ep : Endpoint) :
  (forall (W : Type) (sdk : Sdk W) (w : W) (req : Request),
     exists res,
       response (exec sdk (handler env ep req) w) = Some res
       /\ In (statusCode res) (endpoint_statuses ep))
  /\ Forall
       (fun code =>
          exists req script res,
            response (exec scripted (handler env ep req) script) = Some res
            /\ statusCode res = code)
       (endpoint_statuses ep).
Proof.
  split.
  - intros W sdk w req.
    destruct ep; unfold_handlers; run.
    all: eexists; split; [reflexivity | cbn; tauto].
  - destruct ep; cbn [endpoint_statuses]; repeat constructor.
    all: first
      [ exists (payment_request (JNum n10_99) false),
          [Returns online_reader; Returns sample_intent; Returns online_reader];
        eexists; split; reflexivity
      | exists (payment_request (JNum n10_99) false), [Returns offline_reader];
        eexists; split; reflexivity
      | exists (payment_request (JNum n10_99) false), [Returns JNull];
        eexists; split; reflexivity
      | exists (payment_request (JNum n10_99) false), [];
        eexists; split; reflexivity
      | exists (payment_request (JNum minus5) false), [];
        eexists; split; reflexivity
      | exists (register_request true), [Returns online_reader];
        eexists; split; reflexivity
      | exists (register_request true), [];
        eexists; split; reflexivity
      | exists (register_request false), [];
        eexists; split; reflexivity ].
Qed.

(** X3: a 2xx answer means the whole sequence of the route's SDK methods
    was called and every call returned. *)
Theorem success_runs_whole_sequence `{RT : JsRuntime} (env : ProcessEnv)
    (ep : Endpoint) (W : Type) (sdk : Sdk W) (w : W) (req : Request) :
  let r := exec sdk (handler env ep req) w in
  exists res,
    response r = Some res
    /\ ((statusCode res <? 300) = true ->
        methods r = endpoint_methods ep
        /\ forallb returned (outcomes r) = true).
Proof.
  intros r. subst r. unfold methods.
  destruct ep; unfold_handlers; run.
  all: eexists; split; [reflexivity |].
  all: cbn; intros Hcode; first [discriminate Hcode | split; reflexivity].
Qed.

Lemma success_runs_whole_sequence_witness :
  methods
    (exec scripted
       (handler (RT := no_strings) sample_env POST_payments_process_payment
          (payment_request (JNum n10_99) false))
       [Returns online_reader; Returns online_reader])
  = [terminal_readers_retrieve; terminal_readers_processPaymentIntent].
Proof.
  destruct (success_runs_whole_sequence (RT := no_strings) sample_env
              POST_payments_process_payment (list Outcome) scripted
              [Returns online_reader; Returns online_reader]
              (payment_request (JNum n10_99) false)) as [res [Hres Hall]].
  cbn in Hres. injection Hres as <-.
  exact (proj1 (Hall eq_refl)).
Defined.

(** X4: a 4xx answer is sent only after read-only SDK calls (reader or
    payment-intent lookups, signature verification), if any: no route
    answers 4xx once a payment intent was created, captured, cancelled or
    sent to a reader. *)
Theorem client_error_only_after_reads `{RT : JsRuntime} (env : ProcessEnv)
    (ep : Endpoint) (W : Type) (sdk : Sdk W) (w : W) (req : Request) :
  let r := exec sdk (handler env ep req) w in
  exists res,
    response r = Some res
    /\ ((400 <=? statusCode res) && (statusCode res <? 500) = true ->
        forallb read_only (methods r) = true).
Proof.
  intros r. subst r. unfold methods.
  destruct ep; unfold_handlers; run.
  all: eexists; split; [reflexivity |].
  all: cbn; intros Hcode; first [discriminate Hcode | reflexivity].
Qed.

Lemma client_error_only_after_reads_witness :
  forallb read_only
    (methods
       (exec scripted
          (handler (RT := no_strings) sample_env
             POST_payments_create_payment_intent
             (payment_request (JNum n10_99) false))
          [Returns offline_reader; Returns sample_intent]))
  = true.
Proof.
  destruct (client_error_only_after_reads (RT := no_strings) sample_env
              POST_payments_create_payment_intent (list Outcome) scripted
              [Returns offline_reader; Returns sample_intent]
              (payment_request (JNum n10_99) false)) as [res [Hres Hall]].
  cbn in Hres. injection Hres as <-.
  exact (Hall eq_refl).
Defined.

(** ** Reader lookups *)

(** X6: on the four routes that look the reader up (create-payment-intent,
    process-payment, simulate-payment, create-and-process-payment), a
    request that passes validation and whose reader lookup returns nothing
    (a falsy value) is answered 404 ["Reader not found"], and the lookup is
    the only SDK call. *)
Theorem missing_reader_answers_404 `{RT : JsRuntime} (env : ProcessEnv)
    (ep : Endpoint) (W : Type) (sdk : Sdk W) (w : W) (req : Request)
    (reader : JsValue) :
  checks_reader ep = true ->
  passes_validation ep req = true ->
  fst (sdk w (retrieve_call (reader_id_of ep req))) = Returns reader ->
  ToBoolean reader = false ->
  let r := exec sdk (handler env ep req) w in
  response r = Some reader_not_found
  /\ calls r = [retrieve_call (reader_id_of ep req)].
Proof.
  intros Hep Hval Hret Hfalsy r. subst r.
  unfold retrieve_call, reader_not_found in *.
  destruct ep; try discriminate Hep; cbn in Hval, Hret; unfold js_not in *.
  - apply andb_prop in Hval as [Hval Hid].
    apply andb_prop in Hval as [Hbody Hamount].
    apply negb_true_iff in Hbody.
    unfold handler, create_payment_intent, await, js_not.
    rewrite !(destructure_ok _ _ _ Hbody). cbn.
    rewrite (valid_amount_passes_validation _ Hamount). cbn.
    rewrite Hid. cbn.
    destruct (sdk w _) as [o w1]. cbn in Hret. subst o. cbn.
    rewrite Hfalsy. cbn. split; reflexivity.
  - apply andb_prop in Hval as [Hbody Hpi].
    apply negb_true_iff in Hbody.
    unfold_handlers. unfold js_not.
    rewrite !(destructure_ok _ _ _ Hbody). cbn.
    rewrite Hpi. cbn.
    destruct (sdk w _) as [o w1]. cbn in Hret. subst o. cbn.
    rewrite Hfalsy. cbn. split; reflexivity.
  - unfold_handlers. unfold js_not. cbn.
    destruct (sdk w _) as [o w1]. cbn in Hret. subst o. cbn.
    rewrite Hfalsy. cbn. split; reflexivity.
  - apply andb_prop in Hval as [Hbody Hamount].
    apply negb_true_iff in Hbody.
    unfold handler, create_and_process_payment, await, js_not.
    rewrite !(destructure_ok _ _ _ Hbody). cbn.
    rewrite (valid_amount_passes_validation _ Hamount). cbn.
    destruct (sdk w _) as [o w1]. cbn in Hret. subst o. cbn.
    rewrite Hfalsy. cbn. split; reflexivity.
Qed.

Lemma missing_reader_answers_404_witness :
  response
    (exec scripted
       (handler (RT := no_strings) sample_env POST_payments_create_payment_intent
          (payment_request (JNum n10_99) true))
       [Returns JNull; Returns sample_intent])
  = Some reader_not_found
  /\ calls
       (exec scripted
          (handler (RT := no_strings) sample_env
             POST_payments_create_payment_intent
             (payment_request (JNum n10_99) true))
          [Returns JNull; Returns sample_intent])
     = [retrieve_call (JStr "tmr_1")].
Proof.
  exact (missing_reader_answers_404 (RT := no_strings) sample_env
           POST_payments_create_payment_intent (list Outcome) scripted
           [Returns JNull; Returns sample_intent]
           (payment_request (JNum n10_99) true) JNull
           eq_refl eq_refl eq_refl eq_refl).
Defined.

(** X7: the reader-status, capture and cancel routes pass their path
    parameter to one SDK method and answer 200 with whatever it returns,
    [null] included (the reader-status route has no 404), or 500 with the
    message of what it throws. *)
Theorem id_routes_pass_through (W : Type) (sdk : Sdk W) (w : W)
    (req : Request) :
  let follows (h : Request -> Prog Response) (m : SdkMethod)
      (param key : string) :=
    let c := mkCall m [assoc param (params req)] in
    let r := exec sdk (h req) w in
    calls r = [c]
    /\ match fst (sdk w c) with
       | Returns v => response r = Some (status_json 200 (success key v))
       | Throws e => response r = Some (server_error e)
       end in
  follows get_reader terminal_readers_retrieve "readerId" "reader"
  /\ follows capture_payment paymentIntents_capture "paymentIntentId"
       "paymentIntent"
  /\ follows cancel_payment paymentIntents_cancel "paymentIntentId"
       "paymentIntent".
Proof.
  cbv zeta. unfold get_reader, capture_payment, cancel_payment, await.
  cbn. repeat split; call_step; reflexivity.
Qed.

(** ** Payment status *)

(** X8: the payment-status route answers 404 when the lookup returns
    nothing; otherwise it answers 200 with a copy of the intent restricted
    to [id], [status], [amount], [currency], [payment_method], [created],
    [metadata] and [last_payment_error]: every other field of the intent
    (its client secret, say) is left out. *)
Theorem payment_status_projects (W : Type) (sdk : Sdk W) (w : W)
    (req : Request) (intent : JsValue) :
  fst (sdk w (mkCall paymentIntents_retrieve
                [assoc "paymentIntentId" (params req)])) = Returns intent ->
  let r := exec sdk (payment_status req) w in
  (ToBoolean intent = false -> response r = Some payment_intent_not_found)
  /\ (ToBoolean intent = true ->
      exists shown,
        response r = Some (status_json 200 (success "payment_intent" shown))
        /\ forall k,
            prop shown k = if existsb (String.eqb k) status_fields
                           then prop intent k else JUndefined).
Proof.
  intros Hret r. subst r.
  unfold payment_status, await, js_not, payment_intent_not_found. cbn.
  destruct (sdk w _) as [o w1]. cbn in Hret. subst o. cbn.
  split; intros Htruthy; rewrite Htruthy; cbn.
  - reflexivity.
  - rewrite !(get_ok _ _ (truthy_not_nullish _ Htruthy)). cbn.
    eexists. split; [reflexivity |].
    intros k. cbn.
    repeat match goal with
    | |- context [String.eqb k ?s] =>
        destruct (String.eqb_spec k s); [subst k; reflexivity |]; cbn
    end.
    reflexivity.
Qed.

Lemma payment_status_projects_witness :
  exists shown,
    response
      (exec scripted
         (payment_status (mkRequest [("paymentIntentId", "pi_1")] [] JUndefined))
         [Returns (JObj [("id", JStr "pi_1");
                         ("client_secret", JStr "pi_1_secret_x")])])
    = Some (status_json 200 (success "payment_intent" shown))
    /\ prop shown "client_secret" = JUndefined
    /\ prop shown "id" = JStr "pi_1".
Proof.
  destruct (proj2
    (payment_status_projects (list Outcome) scripted
       [Returns (JObj [("id", JStr "pi_1");
                       ("client_secret", JStr "pi_1_secret_x")])]
       (mkRequest [("paymentIntentId", "pi_1")] [] JUndefined) _ eq_refl)
    eq_refl) as [shown [Hsent Hfields]].
  exists shown. split; [exact Hsent |].
  split; [exact (Hfields "client_secret") | exact (Hfields "id")].
Defined.

(** ** Payments on a reader *)

(** X9: process-payment answers 400 ["Payment intent ID is required"]
    without any SDK call when the body has no [payment_intent]; with one
    and an online reader it calls [processPaymentIntent] with the path's
    reader id and [{payment_intent}] as given, and answers 200 with the
    reader that call returns (500 with the message if it throws). *)
Theorem process_payment_forwards (W : Type) (sdk : Sdk W) (w : W)
    (req : Request) (fields : list (string * JsValue)) :
  body req = JObj fields ->
  let readerId := assoc "readerId" (params req) in
  let payment_intent := lookup "payment_intent" fields in
  let r := exec sdk (process_payment req) w in
  (ToBoolean payment_intent = false ->
   response r = Some payment_intent_required /\ calls r = [])
  /\ (forall reader w1,
        ToBoolean payment_intent = true ->
        sdk w (retrieve_call readerId) = (Returns reader, w1) ->
        prop reader "status" = JStr "online" ->
        calls r = [retrieve_call readerId; process_call readerId payment_intent]
        /\ match fst (sdk w1 (process_call readerId payment_intent)) with
           | Returns processed =>
               response r = Some (status_json 200 (success "reader" processed))
           | Throws e => response r = Some (server_error e)
           end).
Proof.
  intros Hbody readerId payment_intent r. subst r.
  unfold process_payment, await, js_not, payment_intent_required,
    retrieve_call, process_call, strict_neq_string.
  rewrite Hbody. cbn. fold readerId payment_intent.
  split.
  - intros Hpi. rewrite Hpi. cbn. split; reflexivity.
  - intros reader w1 Hpi Hret Hstatus. rewrite Hpi. cbn.
    rewrite Hret. cbn.
    assert (Hobj : ToBoolean reader = true).
    { destruct reader; cbn in Hstatus; try discriminate Hstatus. reflexivity. }
    rewrite Hobj. cbn. rewrite (get_ok _ _ (truthy_not_nullish _ Hobj)). cbn.
    rewrite Hstatus. cbn.
    call_step; split; reflexivity.
Qed.

Lemma process_payment_forwards_witness :
  calls
    (exec scripted (process_payment (payment_request (JNum n10_99) false))
       [Returns online_reader; Returns online_reader])
  = [retrieve_call (JStr "tmr_1"); process_call (JStr "tmr_1") (JStr "pi_1")].
Proof.
  exact (proj1 (proj2
    (process_payment_forwards (list Outcome) scripted
       [Returns online_reader; Returns online_reader]
       (payment_request (JNum n10_99) false) _ eq_refl)
    online_reader [Returns online_reader] eq_refl eq_refl eq_refl)).
Defined.

(** X10: create-and-process-payment chains its calls: with a positive
    amount and an online reader, the intent returned by
    [paymentIntents.create] is sent to the reader by its [id], and the
    answer is 200 with both the intent and the reader. When
    [processPaymentIntent] throws, the answer is 500 and the run ends
    there: the intent just created is neither cancelled nor reported. *)
Theorem create_and_process_payment_chains `{RT : JsRuntime} (W : Type)
    (sdk : Sdk W) (w : W) (req : Request) (fields : list (string * JsValue))
    (a : Number) (reader intent : JsValue) (w1 w2 : W) :
  body req = JObj fields ->
  lookup "amount" fields = JNum a ->
  SFltb zero a = true ->
  let readerId := assoc "readerId" (params req) in
  let create :=
    mkCall paymentIntents_create
      [forwarded a (lookup "currency" fields) readerId] in
  let process := process_call readerId (prop intent "id") in
  let r := exec sdk (create_and_process_payment req) w in
  sdk w (retrieve_call readerId) = (Returns reader, w1) ->
  prop reader "status" = JStr "online" ->
  sdk w1 create = (Returns intent, w2) ->
  is_nullish intent = false ->
  calls r = [retrieve_call readerId; create; process]
  /\ match fst (sdk w2 process) with
     | Returns processed =>
         response r =
           Some (status_json 200
                   (JObj [("status", JStr "success");
                          ("paymentIntent", intent);
                          ("reader", processed)]))
     | Throws e => response r = Some (server_error e)
     end.
Proof.
  intros Hbody Hamount Hpos readerId create process r Hret Hstatus Hcreate Hnn.
  subst r create process.
  unfold create_and_process_payment, await, js_not, retrieve_call, process_call,
    forwarded, payment_intent_params, js_mul, strict_neq_string in *.
  rewrite Hbody. cbn. rewrite Hamount.
  rewrite (positive_amount_passes_validation a Hpos). cbn.
  fold readerId. rewrite Hret. cbn.
  assert (Hobj : ToBoolean reader = true).
  { destruct reader; cbn in Hstatus; try discriminate Hstatus. reflexivity. }
  rewrite Hobj. cbn. rewrite (get_ok _ _ (truthy_not_nullish _ Hobj)). cbn.
  rewrite Hstatus. cbn. rewrite andb_false_r.
  unfold simulatedReaderConfig.testMode.defaultCurrency. cbn.
  rewrite Hcreate. cbn. rewrite (get_ok _ _ Hnn). cbn.
  call_step; split; reflexivity.
Qed.

Lemma create_and_process_payment_chains_witness :
  calls
    (exec scripted
       (create_and_process_payment (RT := no_strings)
          (payment_request (JNum n10_99) false))
       [Returns online_reader; Returns sample_intent;
        Throws (mkError "StripeInvalidRequestError" "Reader is busy")])
  = [retrieve_call (JStr "tmr_1");
     mkCall paymentIntents_create
       [forwarded n10_99 JUndefined (JStr "tmr_1")];
     process_call (JStr "tmr_1") (JStr "pi_1")]
  /\ response
       (exec scripted
          (create_and_process_payment (RT := no_strings)
             (payment_request (JNum n10_99) false))
          [Returns online_reader; Returns sample_intent;
           Throws (mkError "StripeInvalidRequestError" "Reader is busy")])
     = Some (status_json 500 (error_envelope "Reader is busy")).
Proof.
  exact (create_and_process_payment_chains (RT := no_strings) (list Outcome)
           scripted
           [Returns online_reader; Returns sample_intent;
            Throws (mkError "StripeInvalidRequestError" "Reader is busy")]
           (payment_request (JNum n10_99) false) _ n10_99
           online_reader sample_intent
           [Returns sample_intent;
            Throws (mkError "StripeInvalidRequestError" "Reader is busy")]
           [Throws (mkError "StripeInvalidRequestError" "Reader is busy")]
           eq_refl eq_refl eq_refl eq_refl eq_refl eq_refl eq_refl).
Defined.

(** X11: simulate-payment presents the payment method on any reader the
    lookup finds: it reads neither the reader's status nor the test-mode
    configuration, so an offline reader is simulated like an online one. *)
Theorem simulate_payment_ignores_status (W : Type) (sdk : Sdk W) (w : W)
    (req : Request) (reader : JsValue) (w1 : W) :
  let readerId := assoc "readerId" (params req) in
  let present :=
    mkCall testHelpers_terminal_readers_presentPaymentMethod [readerId] in
  let r := exec sdk (simulate_payment req) w in
  sdk w (retrieve_call readerId) = (Returns reader, w1) ->
  ToBoolean reader = true ->
  calls r = [retrieve_call readerId; present]
  /\ match fst (sdk w1 present) with
     | Returns simulated =>
         response r = Some (status_json 200 (success "reader" simulated))
     | Throws e => response r = Some (server_error e)
     end.
Proof.
  intros readerId present r Hret Htruthy. subst r present.
  unfold simulate_payment, await, js_not, retrieve_call in *. cbn.
  fold readerId. rewrite Hret. cbn. rewrite Htruthy. cbn.
  call_step; split; reflexivity.
Qed.

Lemma simulate_payment_ignores_status_witness :
  methods
    (exec scripted (simulate_payment (payment_request (JNum n10_99) false))
       [Returns offline_reader; Returns offline_reader])
  = [terminal_readers_retrieve;
     testHelpers_terminal_readers_presentPaymentMethod].
Proof.
  unfold methods.
  rewrite (proj1
    (simulate_payment_ignores_status (list Outcome) scripted
       [Returns offline_reader; Returns offline_reader]
       (payment_request (JNum n10_99) false) offline_reader
       [Returns offline_reader] eq_refl eq_refl)).
  reflexivity.
Defined.

(** ** Registration of a physical reader *)

(** X12: without the [simulated] flag and with a registration code,
    register passes the code on as it is, passes [label] and [location] on
    when they are set and [undefined] when they are not, and answers 201
    with the reader created (500 with the message when the SDK throws). *)
Theorem register_physical_reader (W : Type) (sdk : Sdk W) (w : W)
    (req : Request) (fields : list (string * JsValue)) :
  body req = JObj fields ->
  ToBoolean (lookup "simulated" fields) = false ->
  ToBoolean (lookup "registration_code" fields) = true ->
  let optional v := if ToBoolean v then v else JUndefined in
  let create :=
    mkCall terminal_readers_create
      [JObj [("registration_code", lookup "registration_code" fields);
             ("label", optional (lookup "label" fields));
             ("location", optional (lookup "location" fields))]] in
  let r := exec sdk (register_reader req) w in
  calls r = [create]
  /\ match fst (sdk w create) with
     | Returns reader =>
         response r = Some (status_json 201 (success "reader" reader))
     | Throws e => response r = Some (server_error e)
     end.
Proof.
  intros Hbody Hsim Hcode optional create r. subst r create optional.
  unfold register_reader, await, js_not, js_or. rewrite Hbody. cbn.
  rewrite ToBoolean_with_default_false, Hsim, Hcode. cbn.
  call_step; split; reflexivity.
Qed.

Lemma register_physical_reader_witness :
  calls
    (exec scripted
       (register_reader
          (mkRequest [] []
             (JObj [("registration_code", JStr "puppies-plug-could");
                    ("label", JStr "Main Store Reader")])))
       [Returns online_reader])
  = [mkCall terminal_readers_create
       [JObj [("registration_code", JStr "puppies-plug-could");
              ("label", JStr "Main Store Reader");
              ("location", JUndefined)]]].
Proof.
  exact (proj1
    (register_physical_reader (list Outcome) scripted [Returns online_reader]
       (mkRequest [] []
          (JObj [("registration_code", JStr "puppies-plug-could");
                 ("label", JStr "Main Store Reader")]))
       _ eq_refl eq_refl eq_refl)).
Defined.

(** ** Validation of create-payment-intent *)

(** X13: create-payment-intent with a positive amount and no [readerId] in
    the body is answered 400 ["Reader ID is required"] without any SDK
    call. *)
Theorem create_payment_intent_requires_reader_id `{RT : JsRuntime} (W : Type)
    (sdk : Sdk W) (w : W) (req : Request) (fields : list (string * JsValue)) :
  body req = JObj fields ->
  positive_number (lookup "amount" fields) = true ->
  ToBoolean (lookup "readerId" fields) = false ->
  let r := exec sdk (create_payment_intent req) w in
  response r = Some reader_id_required /\ calls r = [].
Proof.
  intros Hbody Hamount Hid r. subst r.
  destruct (lookup "amount" fields) as [| | b | x | s | l | f] eqn:A;
    try discriminate Hamount.
  cbn in Hamount.
  unfold create_payment_intent, js_not, reader_id_required. rewrite Hbody. cbn.
  rewrite A, (positive_amount_passes_validation x Hamount). cbn.
  rewrite Hid. cbn. split; reflexivity.
Qed.

Lemma create_payment_intent_requires_reader_id_witness :
  response
    (exec scripted
       (create_payment_intent (RT := no_strings)
          (mkRequest [] [] (JObj [("amount", JNum n50)])))
       [Returns online_reader])
  = Some reader_id_required
  /\ calls
       (exec scripted
          (create_payment_intent (RT := no_strings)
             (mkRequest [] [] (JObj [("amount", JNum n50)])))
          [Returns online_reader])
     = [].
Proof.
  exact (create_payment_intent_requires_reader_id (RT := no_strings)
           (list Outcome) scripted [Returns online_reader]
           (mkRequest [] [] (JObj [("amount", JNum n50)])) _
           eq_refl eq_refl eq_refl).
Defined.



(** ** Requests without a body *)

(** X15: when [req.body] is [undefined] or [null], the four routes that
    destructure it (register, create-payment-intent, process-payment,
    create-and-process-payment) answer 500 with the TypeError's message,
    not 400, and call nothing of the SDK. *)
Theorem missing_body_answers_500 `{RT : JsRuntime} (env : ProcessEnv)
    (ep : Endpoint) (W : Type) (sdk : Sdk W) (w : W) (req : Request)
    (field : string) :
  first_body_field ep = Some field ->
  is_nullish (body req) = true ->
  let r := exec sdk (handler env ep req) w in
  response r
  = Some (server_error (TypeError_destructure (body req) field "req.body"))
  /\ calls r = [].
Proof.
  intros Hep Hnull r. subst r. unfold server_error.
  destruct ep; try discriminate Hep; injection Hep as <-; unfold_handlers.
  all: rewrite (destructure_nullish _ _ _ Hnull); cbn; split; reflexivity.
Qed.

Lemma missing_body_answers_500_witness :
  response
    (exec scripted
       (handler (RT := no_strings) sample_env POST_readers_register
          (mkRequest [] [] JUndefined))
       [Returns online_reader])
  = Some (status_json 500
            (error_envelope
               "Cannot destructure property 'registration_code' of 'req.body' as it is undefined."))
  /\ calls
       (exec scripted
          (handler (RT := no_strings) sample_env POST_readers_register
             (mkRequest [] [] JUndefined))
          [Returns online_reader])
     = [].
Proof.
  exact (missing_body_answers_500 (RT := no_strings) sample_env
           POST_readers_register (list Outcome) scripted
           [Returns online_reader] (mkRequest [] [] JUndefined)
           "registration_code" eq_refl eq_refl).
Defined.

(** ** What the webhook logs *)

(** X16: the webhook's console output: one [console.error] with the error
    when verification throws; for a verified event of the Stripe API, one
    [console.log] with the payment intent's id when the type is
    [payment_intent.succeeded] or [payment_intent.payment_failed], and
    nothing for any other type. *)
Theorem webhook_logs_handled_events (env : ProcessEnv) (W : Type)
    (sdk : Sdk W) (w : W) (req : Request) :
  let r := exec sdk (webhook env req) w in
  match fst (sdk w (constructEvent_call env req)) with
  | Throws e => console r = [mkLog console_error "Webhook error:" (LogError e)]
  | Returns ev =>
      stripe_event ev = true ->
      let id := prop (prop (prop ev "data") "object") "id" in
      console r =
        if strict_eq_string (prop ev "type") "payment_intent.succeeded"
        then [mkLog console_log "Payment succeeded:" (LogValue id)]
        else if strict_eq_string (prop ev "type") "payment_intent.payment_failed"
        then [mkLog console_log "Payment failed:" (LogValue id)]
        else []
  end.
Proof.
  unfold constructEvent_call, stripe_event, handled_type.
  unfold_handlers. cbn.
  call_step; [| reflexivity].
  intros Hev. run; try discriminate Hev; reflexivity.
Qed.

Lemma webhook_logs_handled_events_witness :
  console
    (exec scripted (webhook sample_env signed_request) [Returns succeeded_event])
  = [mkLog console_log "Payment succeeded:" (LogValue (JStr "pi_1"))].
Proof.
  exact (webhook_logs_handled_events sample_env (list Outcome) scripted
           [Returns succeeded_event] signed_request eq_refl).
Defined.
